(** * api-gateway: request pipeline and reverse proxy

    A shallow embedding of the gateway's middleware chain
    (src/main.py, src/core/logging.py, src/core/rate_limit.py,
    src/core/auth.py) and of its reverse-proxy route
    (src/core/routing.py), with the properties the specification states
    about them.

    Conventions of the model:
    - Python [str] values are [string]s of Latin-1 characters, Python
      [int]s are [Z], wall-clock readings ([time.time()]) are rationals
      [Q]; floating-point rounding of the clock arithmetic is not
      modelled.
    - Mutable process state (the [requests_store] dictionary, the logging
      calls made so far, [request.state], the clock and the random source)
      is threaded explicitly through a state-and-exception monad [M].
    - Third-party libraries (Starlette/FastAPI, httpx, python-jose) are not
      part of the repository; the few rules of theirs that the code relies
      on are written down where they are used, each with the library
      behaviour it stands for. *)

From Stdlib Require Import Ascii String ZArith QArith Qround Lqa.
From stdpp Require Import base option list gmap strings pretty.

Set Default Proof Using "Type".
Local Open Scope Z_scope.
Local Open Scope string_scope.

(* ===================================================================== *)
(** ** Python string primitives *)
(* ===================================================================== *)

Module Py.

Definition code (c : ascii) : N := N_of_ascii c.

(** [str.isspace] for one Latin-1 character: TAB..CR, FS..US, SPACE,
    NEL (0x85) and NBSP (0xA0). *)
Definition isspace (c : ascii) : bool :=
  let n := code c in
  ((9 <=? n) && (n <=? 13) || (28 <=? n) && (n <=? 32)
   || (n =? 133) || (n =? 160))%N.

(** [str.lower] for one Latin-1 character: A..Z and the accented capitals
    0xC0..0xDE (except the multiplication sign 0xD7) move up by 32. *)
Definition lower_char (c : ascii) : ascii :=
  let n := code c in
  if ((65 <=? n) && (n <=? 90)
      || (192 <=? n) && (n <=? 222) && negb (n =? 215))%N
  then ascii_of_N (n + 32) else c.

Fixpoint lower (s : string) : string :=
  match s with
  | EmptyString => EmptyString
  | String c s' => String (lower_char c) (lower s')
  end.

(** [s.startswith(p)] *)
Definition startswith (s p : string) : bool := String.prefix p s.

(** [bool(s)]: a string is truthy iff it is not empty. *)
Definition truthy (s : string) : bool :=
  match s with EmptyString => false | String _ _ => true end.

(** [v = d.get(k)] followed by [if v:]: a value that is present and not
    empty. *)
Definition nonempty (o : option string) : option string :=
  match o with
  | Some v => if truthy v then Some v else None
  | None => None
  end.

(** [s.split()] with no argument: the maximal runs of non-whitespace
    characters, in order. *)
Fixpoint split (s : string) : list string :=
  match s with
  | EmptyString => []
  | String c s' =>
      if isspace c then split s'
      else match s' with
           | EmptyString => [String c EmptyString]
           | String c' _ =>
               if isspace c' then String c EmptyString :: split s'
               else match split s' with
                    | w :: ws => String c w :: ws
                    | [] => [String c EmptyString]
                    end
           end
  end.

(** [s.split(",")[0]]: everything before the first comma. *)
Fixpoint before_comma (s : string) : string :=
  match s with
  | EmptyString => EmptyString
  | String c s' =>
      if Ascii.eqb c ","%char then EmptyString
      else String c (before_comma s')
  end.

Fixpoint lstrip (s : string) : string :=
  match s with
  | EmptyString => EmptyString
  | String c s' => if isspace c then lstrip s' else s
  end.

(** [s.strip()] *)
Definition strip (s : string) : string :=
  String.rev (lstrip (String.rev (lstrip s))).

(** [s[:n]] for [0 <= n]. *)
Fixpoint take (n : nat) (s : string) : string :=
  match n, s with
  | S n', String c s' => String c (take n' s')
  | _, _ => EmptyString
  end.

(** [int(x)] on a real number: truncation towards zero. *)
Definition int (x : Q) : Z := Z.quot (Qnum x) (Z.pos (Qden x)).

(** [a > b] on real numbers, as a boolean. *)
Definition gt (a b : Q) : bool := negb (Qle_bool a b).

End Py.

(* ===================================================================== *)
(** ** Data model *)
(* ===================================================================== *)

(** JSON-like Python values: response bodies, token claims and the
    key/value fields of structured log records. *)
#[local] Set Warnings "-register-all".
Inductive JValue : Type :=
  | JNull
  | JBool (b : bool)
  | JInt (n : Z)
  | JNum (x : Q)
  | JStr (s : string)
  | JArr (items : list JValue)
  | JObj (fields : list (string * JValue)).

(** Credential claims: a Python [dict] from claim names to values. *)
Abbreviation Claims := (gmap string JValue).

(** The part of a Starlette [Request] the gateway reads.  [headers] is the
    raw header list; an ASGI server delivers header names in lower case. *)
Record Request : Type := mkRequest {
  method : string;
  url_path : string;                      (* request.url.path *)
  url : string;                           (* str(request.url) *)
  query_params : list (string * string);
  headers : list (string * string);
  body : string;
  client_host : string                    (* request.client.host *)
}.

(** Response bodies: JSON content rendered by [JSONResponse], or raw text
    of a plain [Response]. *)
Inductive Body : Type :=
  | JSONBody (content : JValue)
  | RawBody (text : string).

Record Response : Type := mkResponse {
  status_code : Z;
  resp_headers : list (string * string);
  resp_body : Body
}.

(** [headers[name] = value] on a raw header list, as Starlette's
    [MutableHeaders.__setitem__] does it: the name is lower-cased; the
    first header of that name takes the value and later ones of that name
    are deleted; with no such header, the pair is appended. *)
Fixpoint set_header_key (key value : string) (hs : list (string * string))
  : list (string * string) :=
  match hs with
  | [] => [(key, value)]
  | (k, v) :: hs' =>
      if String.eqb k key
      then (k, value) :: filter (fun kv => kv.1 <> key) hs'
      else (k, v) :: set_header_key key value hs'
  end.

Definition set_header (name value : string) (hs : list (string * string))
  : list (string * string) :=
  set_header_key (Py.lower name) value hs.

(** [headers.get(name)]: the value of the first header whose name is
    [name], compared case-insensitively ([Headers.__getitem__] lower-cases
    the key it is asked for). *)
Fixpoint headers_get (name : string) (hs : list (string * string))
  : option string :=
  match hs with
  | [] => None
  | (k, v) :: hs' =>
      if String.eqb k (Py.lower name) then Some v else headers_get name hs'
  end.

(** Logging levels and the record of one logging call. *)
Inductive Level : Type := DEBUG | INFO | WARNING | ERROR.

Record LogEntry : Type := mkLog {
  level : Level;
  logger_name : string;
  message : string;
  extra_fields : list (string * JValue);
  exc_info : bool
}.

(** One rate-limit record: [{"count": ..., "time": ...}]. *)
Record RLRecord : Type := mkRecord {
  count : Z;
  time : Q
}.

(** [request.state]: attributes set by the middleware. *)
Record ReqState : Type := mkState {
  request_id : option string;
  user : option Claims
}.

(** Exceptions that travel through the pipeline. *)
Inductive RequestErrorKind : Type :=
  | ConnectError          (* connection refused, DNS failure *)
  | ConnectTimeout | ReadTimeout | WriteTimeout | PoolTimeout
  | ReadError | WriteError | CloseError
  | ProtocolError | ProxyError | UnsupportedProtocol
  | DecodingError | TooManyRedirects.

(** The [httpx.TimeoutException] branch of the hierarchy. *)
Definition is_timeout (k : RequestErrorKind) : bool :=
  match k with
  | ConnectTimeout | ReadTimeout | WriteTimeout | PoolTimeout => true
  | _ => false
  end.

(** What the backend answers. *)
Record UpstreamResponse : Type := mkUpstream {
  up_status : Z;
  up_headers : list (string * string);
  up_text : string
}.

Inductive Exc : Type :=
  | HTTPException (status : Z) (detail : string)
  | RequestError (kind : RequestErrorKind) (msg : string)
  | HTTPStatusError (msg : string) (response : UpstreamResponse)
  | ExpiredSignatureError (msg : string)
  | JWTError (msg : string)
  | PyException (msg : string).

(** [str(e)] *)
Definition exc_str (e : Exc) : string :=
  match e with
  | HTTPException _ d => d
  | RequestError _ m => m
  | HTTPStatusError m _ => m
  | ExpiredSignatureError m => m
  | JWTError m => m
  | PyException m => m
  end.

(** The request [httpx.AsyncClient.request] is asked to send. *)
Record UpstreamRequest : Type := mkUpReq {
  u_method : string;
  u_url : string;
  u_params : list (string * string);
  u_headers : list (string * string);
  u_content : string;
  u_timeout : Q
}.

(** The process-wide state and the state of the request in flight. *)
Record World : Type := mkWorld {
  requests_store : gmap string RLRecord;
  log : list LogEntry;               (* logging calls made, oldest first *)
  req_state : ReqState;              (* request.state *)
  clock_reads : nat;                 (* readings of the clock so far *)
  uuid_draws : nat                   (* uuid4() calls so far *)
}.

(** What the gateway does not decide itself: its configuration, the clock,
    the random source and the libraries' answers. *)
Record Env : Type := mkEnv {
  RATE_LIMIT : Z;                    (* int(os.getenv("RATE_LIMIT", "5")) *)
  TIME_WINDOW : Z;                   (* int(os.getenv("TIME_WINDOW", "60")) *)
  SECRET_KEY : string;               (* os.getenv("JWT_SECRET", ...) *)
  clock : nat -> Q;                  (* the n-th reading of the clock *)
  uuid_bits : nat -> N;              (* the n-th 128 random bits *)
  jwt_encode : Claims -> string -> string -> string;
  jwt_decode : string -> string -> list string -> Z -> Exc + Claims;
  send : UpstreamRequest -> (RequestErrorKind * string) + UpstreamResponse;
  json_loads : string -> option JValue;
  internal_routes : Request -> option Response
}.

Definition ALGORITHM : string := "HS256".
Definition BACKEND_SERVICE : string := "http://localhost:9000".
Definition RATE_LIMIT_default : Z := 5.
Definition TIME_WINDOW_default : Z := 60.
Definition SECRET_KEY_default : string := "supersecretjwtkey".

(* ===================================================================== *)
(** ** The state-and-exception monad *)
(* ===================================================================== *)

Inductive Result (A : Type) : Type :=
  | Ok (a : A)
  | Raise (e : Exc).
Arguments Ok {A} a.
Arguments Raise {A} e.

(** A computation reads and writes the world and either returns or raises;
    writes made before an exception stay, as in Python. *)
Definition M (A : Type) : Type := World -> Result A * World.

Definition ret {A} (a : A) : M A := fun w => (Ok a, w).

Definition bind {A B} (m : M A) (k : A -> M B) : M B :=
  fun w => match m w with
           | (Ok a, w') => k a w'
           | (Raise e, w') => (Raise e, w')
           end.

Definition raise {A} (e : Exc) : M A := fun w => (Raise e, w).

(** [try: m  except Exception as e: h e] *)
Definition try_except {A} (m : M A) (h : Exc -> M A) : M A :=
  fun w => match m w with
           | (Ok a, w') => (Ok a, w')
           | (Raise e, w') => h e w'
           end.

#[global] Instance M_ret : MRet M := @ret.
#[global] Instance M_bind : MBind M := fun A B k m => bind m k.

Definition emit (l : Level) (name msg : string)
    (fields : list (string * JValue)) (exc : bool) : M unit :=
  fun w => (Ok tt,
            mkWorld (requests_store w)
                    (log w ++ [mkLog l name msg fields exc])
                    (req_state w) (clock_reads w) (uuid_draws w)).

Definition set_request_id (rid : string) : M unit :=
  fun w => (Ok tt,
            mkWorld (requests_store w) (log w)
                    (mkState (Some rid) (user (req_state w)))
                    (clock_reads w) (uuid_draws w)).

Definition set_user (payload : Claims) : M unit :=
  fun w => (Ok tt,
            mkWorld (requests_store w) (log w)
                    (mkState (request_id (req_state w)) (Some payload))
                    (clock_reads w) (uuid_draws w)).

(** [getattr(request.state, "request_id", "unknown")] *)
Definition get_request_id : M string :=
  fun w => (Ok (default "unknown" (request_id (req_state w))), w).

Definition store_get (ip : string) : M (option RLRecord) :=
  fun w => (Ok (requests_store w !! ip), w).

Definition store_set (ip : string) (r : RLRecord) : M unit :=
  fun w => (Ok tt,
            mkWorld (<[ip := r]> (requests_store w)) (log w)
                    (req_state w) (clock_reads w) (uuid_draws w)).

(** [JSONResponse(status_code=..., content=...)] *)
Definition JSONResponse (status : Z) (content : JValue) : Response :=
  mkResponse status [("content-type", "application/json")] (JSONBody content).

(** The body [{"detail": d}]. *)
Definition detail (d : string) : JValue := JObj [("detail", JStr d)].

(* ===================================================================== *)
(** ** Request ids: [uuid.uuid4()] and its text form *)
(* ===================================================================== *)

Module UUID.

Local Open Scope N_scope.

(** [uuid.UUID(bytes=os.urandom(16), version=4)]: 128 random bits with
    the variant bits set to RFC 4122 and the version nibble set to 4. *)
Definition uuid4_int (random : N) : N :=
  let i := random mod 2 ^ 128 in
  let i := N.lor (N.ldiff i (N.shiftl 0xc000 48)) (N.shiftl 0x8000 48) in
  N.lor (N.ldiff i (N.shiftl 0xf000 64)) (N.shiftl 4 76).

Definition hex_digit (d : N) : ascii :=
  if d <? 10 then ascii_of_N (48 + d) else ascii_of_N (87 + d).

(** ['%0nx' % v], for a value of at most [n] hexadecimal digits. *)
Fixpoint hex (n : nat) (v : N) : string :=
  match n with
  | O => EmptyString
  | S n' => hex n' (v / 16) +:+ String (hex_digit (v mod 16)) EmptyString
  end.

(** [str(u)]: the 32 digits grouped 8-4-4-4-12. *)
Definition str (u : N) : string :=
  let h := hex 32 u in
  String.substring 0 8 h +:+ "-" +:+ String.substring 8 4 h +:+ "-"
  +:+ String.substring 12 4 h +:+ "-" +:+ String.substring 16 4 h +:+ "-"
  +:+ String.substring 20 12 h.

End UUID.

(* ===================================================================== *)
(** ** The middleware and the route *)
(* ===================================================================== *)

Definition Handler : Type := Request -> M Response.

(** Round half to even, the rule of Python's [round]. *)
Definition round_half_even (x : Q) : Z :=
  let f := Qfloor x in
  match Qcompare (x - inject_Z f) (1 # 2) with
  | Lt => f
  | Gt => f + 1
  | Eq => if Z.even f then f else f + 1
  end.

(** [round(x, 2)] *)
Definition round2 (x : Q) : Q := (inject_Z (round_half_even (x * 100)) / 100)%Q.

Section Gateway.

Variable E : Env.

(** [time.time()]: the next reading of the clock. *)
Definition time_time : M Q :=
  fun w => (Ok (clock E (clock_reads w)),
            mkWorld (requests_store w) (log w) (req_state w)
                    (S (clock_reads w)) (uuid_draws w)).

(** [uuid.uuid4()] *)
Definition uuid4 : M N :=
  fun w => (Ok (UUID.uuid4_int (uuid_bits E (uuid_draws w))),
            mkWorld (requests_store w) (log w) (req_state w)
                    (clock_reads w) (S (uuid_draws w))).

(* ------------------------------------------------------------------- *)
(** *** src/core/logging.py *)

Definition requests_logger : string := "api_gateway.requests".

(** [{k.lower(): v for k, v in request.headers.items()}]: a later header
    of the same name overwrites an earlier one. *)
Definition lowered_headers (hs : list (string * string)) : gmap string string :=
  foldl (fun d kv => <[Py.lower kv.1 := kv.2]> d) ∅ hs.

(** [request.client.host or "unknown"] *)
Definition peer_or_unknown (request : Request) : string :=
  if Py.truthy (client_host request) then client_host request else "unknown".

(** [RequestLoggingMiddleware.get_client_ip] *)
Definition logging_get_client_ip (request : Request) : string :=
  let hs := lowered_headers (headers request) in
  match Py.nonempty (hs !! "x-forwarded-for") with
  | Some forwarded_for => Py.strip (Py.before_comma forwarded_for)
  | None =>
      match Py.nonempty (hs !! "x-real-ip") with
      | Some real_ip => real_ip
      | None => peer_or_unknown request
      end
  end.

(** [RequestLoggingMiddleware.generate_request_id]:
    [str(uuid.uuid4())[:8]] *)
Definition generate_request_id : M string :=
  u ← uuid4; mret (Py.take 8 (UUID.str u)).

(** [request.headers.get("X-Request-ID") or self.generate_request_id()] *)
Definition inbound_or_generated (request : Request) : M string :=
  match headers_get "X-Request-ID" (headers request) with
  | Some v => if Py.truthy v then mret v else generate_request_id
  | None => generate_request_id
  end.

(** [response.headers["X-Request-ID"] = request_id] *)
Definition with_request_id (request_id : string) (response : Response)
  : Response :=
  mkResponse (status_code response)
             (set_header "X-Request-ID" request_id (resp_headers response))
             (resp_body response).

(** [RequestLoggingMiddleware.dispatch] *)
Definition RequestLoggingMiddleware_dispatch (call_next : Handler)
    (request : Request) : M Response :=
  start_time ← time_time;
  let client_ip := logging_get_client_ip request in
  request_id ← inbound_or_generated request;
  set_request_id request_id;;
  emit INFO requests_logger "Incoming request"
    [("request_id", JStr request_id);
     ("method", JStr (method request));
     ("url", JStr (url request));
     ("client_ip", JStr client_ip);
     ("user_agent",
      JStr (default "" (headers_get "user-agent" (headers request))));
     ("content_length",
      match headers_get "content-length" (headers request) with
      | Some v => JStr v
      | None => JInt 0
      end)] false;;
  try_except
    (response ← call_next request;
     end_time ← time_time;
     let duration := (end_time - start_time)%Q in
     emit INFO requests_logger "Request completed"
       [("request_id", JStr request_id);
        ("method", JStr (method request));
        ("url", JStr (url request));
        ("status_code", JInt (status_code response));
        ("duration_ms", JNum (round2 (duration * 1000)));
        ("client_ip", JStr client_ip)] false;;
     mret (with_request_id request_id response))
    (fun e =>
       end_time ← time_time;
       let duration := (end_time - start_time)%Q in
       emit ERROR requests_logger "Request failed"
         [("request_id", JStr request_id);
          ("method", JStr (method request));
          ("url", JStr (url request));
          ("error", JStr (exc_str e));
          ("duration_ms", JNum (round2 (duration * 1000)));
          ("client_ip", JStr client_ip)] true;;
       raise e).

(** [LoggerMixin]: the logger is named after the lower-cased class. *)
Definition log_info (cls msg : string) (kwargs : list (string * JValue))
  : M unit :=
  emit INFO ("api_gateway." +:+ Py.lower cls) msg kwargs false.

Definition log_warning (cls msg : string) (kwargs : list (string * JValue))
  : M unit :=
  emit WARNING ("api_gateway." +:+ Py.lower cls) msg kwargs false.

(** [log_error(message, error=e, **kwargs)]: the text of the error is
    added to the fields and the record carries the traceback. *)
Definition log_error (cls msg : string) (error : Exc)
    (kwargs : list (string * JValue)) : M unit :=
  emit ERROR ("api_gateway." +:+ Py.lower cls) msg
       (kwargs ++ [("error", JStr (exc_str error))]) true.


(* ------------------------------------------------------------------- *)
(** *** src/core/rate_limit.py *)

Definition rate_limit_cls : string := "RateLimitMiddleware".

(** [RateLimitMiddleware.get_client_ip] *)
Definition get_client_ip (request : Request) : string :=
  match Py.nonempty (headers_get "X-Forwarded-For" (headers request)) with
  | Some forwarded_for => Py.strip (Py.before_comma forwarded_for)
  | None =>
      match Py.nonempty (headers_get "X-Real-IP" (headers request)) with
      | Some real_ip => real_ip
      | None => peer_or_unknown request
      end
  end.

(** The 429 answer. *)
Definition too_many_requests (remaining_time : Z) : Response :=
  JSONResponse 429
    (detail ("Rate limit exceeded. Try again in "
             +:+ pretty remaining_time +:+ "s.")).

(** [RateLimitMiddleware.dispatch] *)
Definition RateLimitMiddleware_dispatch (call_next : Handler)
    (request : Request) : M Response :=
  let client_ip := get_client_ip request in
  request_id ← get_request_id;
  now ← time_time;
  (* Get or create record for this client *)
  stored ← store_get client_ip;
  let record := default (mkRecord 0 now) stored in
  (* Reset counter if time window has passed *)
  record ←
    (if Py.gt (now - time record) (inject_Z (TIME_WINDOW E))
     then log_info rate_limit_cls "Rate limit window reset"
            [("request_id", JStr request_id);
             ("client_ip", JStr client_ip)];;
          mret (mkRecord 0 now)
     else mret record);
  (* Increment request count *)
  let record := mkRecord (count record + 1) (time record) in
  store_set client_ip record;;
  log_info rate_limit_cls "Rate limit check"
    [("request_id", JStr request_id);
     ("client_ip", JStr client_ip);
     ("current_count", JInt (count record));
     ("limit", JInt (RATE_LIMIT E));
     ("path", JStr (url_path request))];;
  (* Check if limit exceeded *)
  if count record >? RATE_LIMIT E then
    let remaining_time :=
      Py.int (inject_Z (TIME_WINDOW E) - (now - time record)) in
    log_warning rate_limit_cls "Rate limit exceeded"
      [("request_id", JStr request_id);
       ("client_ip", JStr client_ip);
       ("current_count", JInt (count record));
       ("limit", JInt (RATE_LIMIT E));
       ("reset_in", JInt remaining_time);
       ("path", JStr (url_path request))];;
    mret (too_many_requests remaining_time)
  else call_next request.

(* ------------------------------------------------------------------- *)
(** *** src/core/auth.py *)

Definition auth_cls : string := "AuthMiddleware".

(** [jwt.decode(token, SECRET_KEY, algorithms=[ALGORITHM])]: python-jose
    checks the signature and the registered claims against the current
    time in whole seconds, and returns the claims or raises. *)
Definition jwt_decode_now (token : string) : M Claims :=
  now ← time_time;
  match jwt_decode E token (SECRET_KEY E) [ALGORITHM] (Qfloor now) with
  | inr payload => mret payload
  | inl e => raise e
  end.

(** [AuthMiddleware.dispatch] *)
Definition AuthMiddleware_dispatch (call_next : Handler)
    (request : Request) : M Response :=
  request_id ← get_request_id;
  (* Skip authentication for internal endpoints *)
  if Py.startswith (url_path request) "/health"
     || Py.startswith (url_path request) "/metrics" then
    log_info auth_cls "Skipping auth for internal endpoint"
      [("request_id", JStr request_id);
       ("path", JStr (url_path request))];;
    call_next request
  else
    (* Check for Authorization header *)
    match Py.nonempty (headers_get "Authorization" (headers request)) with
    | None =>
        log_warning auth_cls "Missing authorization header"
          [("request_id", JStr request_id);
           ("path", JStr (url_path request));
           ("client_ip", JStr (client_host request))];;
        mret (JSONResponse 401 (detail "Authorization header missing"))
    | Some auth_header =>
        (* Parse Bearer token *)
        let parts := Py.split auth_header in
        if negb (length parts =? 2)%nat
           || negb (String.eqb (Py.lower (nth 0 parts "")) "bearer") then
          log_warning auth_cls "Invalid authorization header format"
            [("request_id", JStr request_id);
             ("path", JStr (url_path request));
             ("auth_header_parts", JInt (Z.of_nat (length parts)))];;
          mret (JSONResponse 401
                  (detail "Invalid Authorization header format"))
        else
          let token := nth 1 parts "" in
          rejected ←
            try_except
              ((* Decode and validate JWT token *)
               payload ← jwt_decode_now token;
               set_user payload;;
               let user_id := default (JStr "unknown") (payload !! "sub") in
               log_info auth_cls "Authentication successful"
                 [("request_id", JStr request_id);
                  ("user_id", user_id);
                  ("path", JStr (url_path request))];;
               mret None)
              (fun e =>
                 match e with
                 | ExpiredSignatureError _ =>
                     log_warning auth_cls "Expired JWT token"
                       [("request_id", JStr request_id);
                        ("path", JStr (url_path request))];;
                     mret (Some (JSONResponse 401 (detail "Token expired")))
                 | JWTError _ =>
                     log_warning auth_cls "Invalid JWT token"
                       [("request_id", JStr request_id);
                        ("path", JStr (url_path request));
                        ("jwt_error", JStr (exc_str e))];;
                     mret (Some (JSONResponse 401
                             (detail ("Invalid token: " +:+ exc_str e))))
                 | _ =>
                     log_error auth_cls
                       "Unexpected error during authentication" e
                       [("request_id", JStr request_id);
                        ("path", JStr (url_path request))];;
                     mret (Some (JSONResponse 500
                             (detail ("Unexpected error: " +:+ exc_str e))))
                 end);
          match rejected with
          | Some response => mret response
          | None => call_next request
          end
    end.



(* ------------------------------------------------------------------- *)
(** *** src/core/routing.py *)

(** [dict(request.headers)]: one entry per header name, in order of first
    appearance, holding the value [request.headers[name]], which is the
    first one of that name. *)
Fixpoint dict_of_headers (hs : list (string * string))
  : list (string * string) :=
  match hs with
  | [] => []
  | (k, v) :: hs' => (k, v) :: filter (fun kv => kv.1 <> k) (dict_of_headers hs')
  end.

(** [response.headers.get(name, "")] on an httpx response: names are
    compared in lower case and several values of one name are joined
    with [", "]. *)
Fixpoint join_comma (vs : list string) : string :=
  match vs with
  | [] => ""
  | [v] => v
  | v :: vs' => v +:+ ", " +:+ join_comma vs'
  end.

Definition httpx_header (name : string) (hs : list (string * string))
  : string :=
  join_comma
    (map snd (filter (fun kv => Py.lower kv.1 = Py.lower name) hs)).

(** The call [client.request(...)] of [proxy], under
    [httpx.AsyncClient(timeout=30.0)]. *)
Definition upstream_request (request : Request) (path : string)
  : UpstreamRequest :=
  mkUpReq (method request)
          (BACKEND_SERVICE +:+ "/" +:+ path)
          (query_params request)
          (dict_of_headers (headers request))
          (body request)
          30.

(** [await client.request(...)]: httpx returns the response whatever its
    status, and raises a [RequestError] when the exchange itself fails;
    [HTTPStatusError] is raised by [Response.raise_for_status] only. *)
Definition client_request (r : UpstreamRequest) : M UpstreamResponse :=
  match send E r with
  | inr response => mret response
  | inl (kind, msg) => raise (RequestError kind msg)
  end.

(** [response.json()] *)
Definition response_json (response : UpstreamResponse) : M JValue :=
  match json_loads E (up_text response) with
  | Some v => mret v
  | None => raise (PyException "JSONDecodeError")
  end.

(** [proxy(request, path)]: the value the route function returns. *)
Definition proxy (request : Request) (path : string) : M JValue :=
  try_except
    (response ← client_request (upstream_request request path);
     (* Handle different response types *)
     if Py.startswith (httpx_header "content-type" (up_headers response))
                      "application/json"
     then response_json response
     else mret (JStr (up_text response)))
    (fun e =>
       match e with
       | RequestError _ _ =>
           raise (HTTPException 503
                    ("Backend service unavailable: " +:+ exc_str e))
       | HTTPStatusError _ response =>
           raise (HTTPException (up_status response)
                    ("Backend service error: " +:+ up_text response))
       | _ => raise e
       end).

(* ------------------------------------------------------------------- *)
(** *** src/main.py on FastAPI and Starlette *)

Definition proxy_methods : list string := ["GET"; "POST"; "PUT"; "DELETE"].

(** FastAPI serialises the value a route function returns as a
    [JSONResponse] with the route's status code, 200 unless the route
    declares another; [proxy] declares none. *)
Definition serialize_response (v : JValue) : Response := JSONResponse 200 v.

(** The routes of [main.py]: [routing.router] under [/api], where
    [/{path:path}] binds the rest of the path ([path_param]), and the
    health and metrics routers, which are collaborators answered by
    [internal_routes]. *)
Definition path_param (request : Request) : string :=
  String.substring 5 (String.length (url_path request) - 5) (url_path request).

Definition router : Handler := fun request =>
  if Py.startswith (url_path request) "/api/" then
    if bool_decide (method request ∈ proxy_methods) then
      v ← proxy request (path_param request);
      mret (serialize_response v)
    else mret (JSONResponse 405 (detail "Method Not Allowed"))
  else
    match internal_routes E request with
    | Some response => mret response
    | None => mret (JSONResponse 404 (detail "Not Found"))
    end.

(** FastAPI's handler for [HTTPException], installed in Starlette's
    [ExceptionMiddleware] directly around the router. *)
Definition ExceptionMiddleware (app : Handler) : Handler := fun request =>
  try_except (app request)
    (fun e =>
       match e with
       | HTTPException status d => mret (JSONResponse status (detail d))
       | _ => raise e
       end).

(** Starlette's [ServerErrorMiddleware], the outermost layer: any
    exception becomes a plain 500. *)
Definition ServerErrorMiddleware (app : Handler) : Handler := fun request =>
  try_except (app request)
    (fun _ =>
       mret (mkResponse 500 [("content-type", "text/plain; charset=utf-8")]
               (RawBody "Internal Server Error"))).

(** [monitoring.setup_metrics]: the function registered with
    [@app.middleware("http")] times the call and passes the response on;
    the Prometheus registry it updates is not part of the model. *)
Definition metrics_middleware (call_next : Handler) (request : Request)
  : M Response :=
  start_time ← time_time;
  response ← call_next request;
  end_time ← time_time;
  mret response.

Inductive MiddlewareClass : Type :=
  | RequestLoggingMiddleware
  | RateLimitMiddleware
  | AuthMiddleware
  | MetricsMiddleware.

Definition dispatch_of (cls : MiddlewareClass) : Handler -> Handler :=
  match cls with
  | RequestLoggingMiddleware => RequestLoggingMiddleware_dispatch
  | RateLimitMiddleware => RateLimitMiddleware_dispatch
  | AuthMiddleware => AuthMiddleware_dispatch
  | MetricsMiddleware => metrics_middleware
  end.

(** A Starlette application: its [user_middleware] list. *)
Record FastAPI : Type := mkApp { user_middleware : list MiddlewareClass }.

(** [app.add_middleware(cls)] is
    [self.user_middleware.insert(0, Middleware(cls))] in Starlette. *)
Definition add_middleware (cls : MiddlewareClass) (app : FastAPI) : FastAPI :=
  mkApp (cls :: user_middleware app).

(** Starlette's [build_middleware_stack]: starting from the router, each
    class of [ServerErrorMiddleware; user_middleware...;
    ExceptionMiddleware], taken in reverse, wraps the application built
    so far; the head of [user_middleware] ends up outermost. *)
Definition build_middleware_stack (app : FastAPI) : Handler :=
  ServerErrorMiddleware
    (foldr dispatch_of (ExceptionMiddleware router) (user_middleware app)).

(** The statements of [main.py], in order: three [add_middleware] calls,
    then [monitoring.setup_metrics(app)], whose [@app.middleware] is
    one more [add_middleware]. *)
Definition app : FastAPI :=
  add_middleware MetricsMiddleware
    (add_middleware AuthMiddleware
       (add_middleware RateLimitMiddleware
          (add_middleware RequestLoggingMiddleware (mkApp [])))).

(** A fresh request enters with an empty [request.state]. *)
Definition enter (w : World) : World :=
  mkWorld (requests_store w) (log w) (mkState None None)
          (clock_reads w) (uuid_draws w).

(** The gateway serving one request. *)
Definition serve (request : Request) (w : World) : Result Response * World :=
  build_middleware_stack app request (enter w).

End Gateway.


(* ===================================================================== *)
(** ** Reading the code: what each stage does to the world *)
(* ===================================================================== *)

(** What the limiter decides for one request. *)
Inductive Decision : Type :=
  | Allow
  | Deny (retry_after : Z).

Section Reading.

Variable E : Env.

(** The id [generate_request_id] returns in world [w]. *)
Definition generated_id (w : World) : string :=
  Py.take 8 (UUID.str (UUID.uuid4_int (uuid_bits E (uuid_draws w)))).

(** The id of a request: the inbound one when present and not empty,
    a generated one otherwise. *)
Definition chosen_id (request : Request) (w : World) : string :=
  match Py.nonempty (headers_get "X-Request-ID" (headers request)) with
  | Some v => v
  | None => generated_id w
  end.

Definition draws_after (request : Request) (w : World) : nat :=
  match Py.nonempty (headers_get "X-Request-ID" (headers request)) with
  | Some _ => uuid_draws w
  | None => S (uuid_draws w)
  end.

Definition incoming_entry (request : Request) (rid : string) : LogEntry :=
  mkLog INFO requests_logger "Incoming request"
    [("request_id", JStr rid);
     ("method", JStr (method request));
     ("url", JStr (url request));
     ("client_ip", JStr (logging_get_client_ip request));
     ("user_agent",
      JStr (default "" (headers_get "user-agent" (headers request))));
     ("content_length",
      match headers_get "content-length" (headers request) with
      | Some v => JStr v
      | None => JInt 0
      end)] false.

(** The world in which the logger calls the next stage: the id is on
    [request.state] and the start entry is written. *)
Definition started (request : Request) (w : World) : World :=
  mkWorld (requests_store w)
          (log w ++ [incoming_entry request (chosen_id request w)])
          (mkState (Some (chosen_id request w)) (user (req_state w)))
          (S (clock_reads w))
          (draws_after request w).

Definition completed_entry (request : Request) (rid : string)
    (response : Response) (duration : Q) : LogEntry :=
  mkLog INFO requests_logger "Request completed"
    [("request_id", JStr rid);
     ("method", JStr (method request));
     ("url", JStr (url request));
     ("status_code", JInt (status_code response));
     ("duration_ms", JNum (round2 (duration * 1000)));
     ("client_ip", JStr (logging_get_client_ip request))] false.

Definition failed_entry (request : Request) (rid : string)
    (e : Exc) (duration : Q) : LogEntry :=
  mkLog ERROR requests_logger "Request failed"
    [("request_id", JStr rid);
     ("method", JStr (method request));
     ("url", JStr (url request));
     ("error", JStr (exc_str e));
     ("duration_ms", JNum (round2 (duration * 1000)));
     ("client_ip", JStr (logging_get_client_ip request))] true.

(** The world after the end entry [entry] is written in [w2]. *)
Definition finished (w2 : World) (entry : LogEntry) : World :=
  mkWorld (requests_store w2) (log w2 ++ [entry]) (req_state w2)
          (S (clock_reads w2)) (uuid_draws w2).

Definition elapsed (w w2 : World) : Q :=
  (clock E (clock_reads w2) - clock E (clock_reads w))%Q.


(** The record [dispatch] stores for a request at [now], from what it
    found in the store: get or create, reset when the window has passed,
    increment. *)
Definition next_record (now : Q) (stored : option RLRecord) : RLRecord :=
  let record := default (mkRecord 0 now) stored in
  let record :=
    if Py.gt (now - time record) (inject_Z (TIME_WINDOW E))
    then mkRecord 0 now else record in
  mkRecord (count record + 1) (time record).

(** Whether the window was reset on the way. *)
Definition resets (now : Q) (stored : option RLRecord) : bool :=
  Py.gt (now - time (default (mkRecord 0 now) stored))
        (inject_Z (TIME_WINDOW E)).

(** The time the caller still has to wait, as [dispatch] computes it. *)
Definition remaining (now : Q) (record : RLRecord) : Z :=
  Py.int (inject_Z (TIME_WINDOW E) - (now - time record)).

(** The limiter as a function of the caller, the clock reading and the
    store: the decision and the store it leaves. *)
Definition check (caller : string) (now : Q) (store : gmap string RLRecord)
  : Decision * gmap string RLRecord :=
  let record := next_record now (store !! caller) in
  (if count record >? RATE_LIMIT E then Deny (remaining now record)
   else Allow,
   <[caller := record]> store).

(** The limiter's log entries for one request. *)
Definition limiter_entries (request : Request) (w : World) : list LogEntry :=
  let client_ip := get_client_ip request in
  let rid := default "unknown" (request_id (req_state w)) in
  let now := clock E (clock_reads w) in
  let stored := requests_store w !! client_ip in
  let record := next_record now stored in
  let name := "api_gateway." +:+ Py.lower rate_limit_cls in
  (if resets now stored
   then [mkLog INFO name "Rate limit window reset"
           [("request_id", JStr rid); ("client_ip", JStr client_ip)] false]
   else [])
  ++ [mkLog INFO name "Rate limit check"
        [("request_id", JStr rid);
         ("client_ip", JStr client_ip);
         ("current_count", JInt (count record));
         ("limit", JInt (RATE_LIMIT E));
         ("path", JStr (url_path request))] false]
  ++ (if count record >? RATE_LIMIT E
      then [mkLog WARNING name "Rate limit exceeded"
              [("request_id", JStr rid);
               ("client_ip", JStr client_ip);
               ("current_count", JInt (count record));
               ("limit", JInt (RATE_LIMIT E));
               ("reset_in", JInt (remaining now record));
               ("path", JStr (url_path request))] false]
      else []).

(** The world the limiter leaves: [check]'s store, the entries above and
    one more clock reading. *)
Definition limited (request : Request) (w : World) : World :=
  mkWorld
    (check (get_client_ip request) (clock E (clock_reads w))
           (requests_store w)).2
    (log w ++ limiter_entries request w)
    (req_state w) (S (clock_reads w)) (uuid_draws w).

(** A run of requests, each given by its caller and its clock reading. *)
Fixpoint run_checks (trace : list (string * Q)) (store : gmap string RLRecord)
  : list Decision * gmap string RLRecord :=
  match trace with
  | [] => ([], store)
  | (caller, now) :: trace' =>
      let '(d, store') := check caller now store in
      let '(ds, store'') := run_checks trace' store' in
      (d :: ds, store'')
  end.

(** The number of requests of [caller] in a trace. *)
Definition requests_of (caller : string) (trace : list (string * Q)) : Z :=
  Z.of_nat (length (filter (fun x => x.1 = caller) trace)).

(** The request at [t1] opens a window for [caller]: the caller is new to
    the store, or the window of its record has passed by [t1]. *)
Definition window_opens (store : gmap string RLRecord) (caller : string)
    (t1 : Q) : Prop :=
  match store !! caller with
  | None => True
  | Some r => Py.gt (t1 - time r) (inject_Z (TIME_WINDOW E)) = true
  end.

(** A request at [t] falls into the window opened at [t1]: the limiter's
    test [t - t1 > TIME_WINDOW] fails. *)
Definition in_window (t1 t : Q) : Prop :=
  (t - t1 <= inject_Z (TIME_WINDOW E))%Q.

(** *** The authenticator *)

(** The answers of the authenticator: five rejections and the
    pass-through with the decoded claims. *)
Inductive AuthOutcome : Type :=
  | MissingHeader
  | MalformedHeader
  | TokenExpired
  | TokenInvalid (reason : string)
  | InternalError (reason : string)
  | Authenticated (claims : Claims).

(** The response that goes with a rejection. *)
Definition rejection (o : AuthOutcome) : option Response :=
  match o with
  | MissingHeader =>
      Some (JSONResponse 401 (detail "Authorization header missing"))
  | MalformedHeader =>
      Some (JSONResponse 401 (detail "Invalid Authorization header format"))
  | TokenExpired => Some (JSONResponse 401 (detail "Token expired"))
  | TokenInvalid m => Some (JSONResponse 401 (detail ("Invalid token: " +:+ m)))
  | InternalError m =>
      Some (JSONResponse 500 (detail ("Unexpected error: " +:+ m)))
  | Authenticated _ => None
  end.

(** The header test of [dispatch]: exactly two whitespace-separated parts,
    the first of which is [bearer] in any letter case. *)
Definition bearer_form (auth_header : string) : bool :=
  (length (Py.split auth_header) =? 2)%nat
  && String.eqb (Py.lower (nth 0 (Py.split auth_header) "")) "bearer".

(** How [dispatch] sorts the answer of [jwt.decode]: the [except] clauses
    in their order. *)
Definition sort_decoded (r : Exc + Claims) : AuthOutcome :=
  match r with
  | inr payload => Authenticated payload
  | inl (ExpiredSignatureError _) => TokenExpired
  | inl (JWTError m) => TokenInvalid m
  | inl e => InternalError (exc_str e)
  end.

(** [dispatch] on a path that is not internal, as a function of the
    [Authorization] header and the second at which the token is decoded. *)
Definition authenticate (auth_header : option string) (now : Z) : AuthOutcome :=
  match Py.nonempty auth_header with
  | None => MissingHeader
  | Some h =>
      if bearer_form h
      then sort_decoded (jwt_decode E (nth 1 (Py.split h) "") (SECRET_KEY E)
                                    [ALGORITHM] now)
      else MalformedHeader
  end.

(** Whether [dispatch] gets as far as decoding a token. *)
Definition decodes (auth_header : option string) : bool :=
  match Py.nonempty auth_header with
  | None => false
  | Some h => bearer_form h
  end.

(** The log entry that goes with an outcome. *)
Definition auth_entry (request : Request) (w : World) (o : AuthOutcome)
  : LogEntry :=
  let name := "api_gateway." +:+ Py.lower auth_cls in
  let rid := JStr (default "unknown" (request_id (req_state w))) in
  let path := JStr (url_path request) in
  match o with
  | MissingHeader =>
      mkLog WARNING name "Missing authorization header"
        [("request_id", rid); ("path", path);
         ("client_ip", JStr (client_host request))] false
  | MalformedHeader =>
      mkLog WARNING name "Invalid authorization header format"
        [("request_id", rid); ("path", path);
         ("auth_header_parts",
          JInt (Z.of_nat (length (Py.split
             (default "" (headers_get "Authorization" (headers request)))))))]
        false
  | TokenExpired =>
      mkLog WARNING name "Expired JWT token"
        [("request_id", rid); ("path", path)] false
  | TokenInvalid m =>
      mkLog WARNING name "Invalid JWT token"
        [("request_id", rid); ("path", path); ("jwt_error", JStr m)] false
  | InternalError m =>
      mkLog ERROR name "Unexpected error during authentication"
        [("request_id", rid); ("path", path); ("error", JStr m)] true
  | Authenticated payload =>
      mkLog INFO name "Authentication successful"
        [("request_id", rid);
         ("user_id", default (JStr "unknown") (payload !! "sub"));
         ("path", path)] false
  end.

(** The outcome for a request in world [w]. *)
Definition auth_outcome (request : Request) (w : World) : AuthOutcome :=
  authenticate (headers_get "Authorization" (headers request))
               (Qfloor (clock E (clock_reads w))).

(** The world the authenticator leaves on a path that is not internal. *)
Definition after_auth (request : Request) (w : World) : World :=
  let o := auth_outcome request w in
  mkWorld (requests_store w)
          (log w ++ [auth_entry request w o])
          (match o with
           | Authenticated payload =>
               mkState (request_id (req_state w)) (Some payload)
           | _ => req_state w
           end)
          (if decodes (headers_get "Authorization" (headers request))
           then S (clock_reads w) else clock_reads w)
          (uuid_draws w).

(** The world the authenticator leaves on an internal path. *)
Definition after_skip (request : Request) (w : World) : World :=
  mkWorld (requests_store w)
          (log w ++ [mkLog INFO ("api_gateway." +:+ Py.lower auth_cls)
                       "Skipping auth for internal endpoint"
                       [("request_id",
                         JStr (default "unknown" (request_id (req_state w))));
                        ("path", JStr (url_path request))] false])
          (req_state w) (clock_reads w) (uuid_draws w).

(** [request.url.path.startswith("/health") or ...startswith("/metrics")] *)
Definition is_internal (request : Request) : bool :=
  Py.startswith (url_path request) "/health"
  || Py.startswith (url_path request) "/metrics".




(** *** The route *)

(** A request the router hands to [proxy]. *)
Definition proxied (request : Request) : bool :=
  Py.startswith (url_path request) "/api/"
  && bool_decide (method request ∈ proxy_methods).

(** Whether the backend declares its answer as JSON. *)
Definition declares_json (response : UpstreamResponse) : bool :=
  Py.startswith (httpx_header "content-type" (up_headers response))
                "application/json".

(** C3 as the specification words it: whatever the gateway answers
    carries the inbound [X-Request-ID] when the client sent one, and a
    generated id otherwise. *)
Definition echoes_request_id (request : Request) (w : World) : Prop :=
  forall response : Response,
    (serve E request w).1 = Ok response ->
    headers_get "X-Request-ID" (resp_headers response)
    = Some (default (generated_id w)
              (headers_get "X-Request-ID" (headers request))).

(** C4 as the specification words it: among the requests of one caller
    that fall into one window, the one that follows [RATE_LIMIT] earlier
    ones is denied, and the wait it is told is the window's remainder
    rounded down, a positive number. *)
Definition denied_with_positive_wait (caller : string) (t1 : Q)
    (rest : list (string * Q)) (store : gmap string RLRecord) : Prop :=
  window_opens store caller t1 ->
  (forall t, (caller, t) ∈ (caller, t1) :: rest -> in_window t1 t) ->
  forall (pre : list (string * Q)) (t : Q) (post : list (string * Q)),
    (caller, t1) :: rest = (pre ++ (caller, t) :: post)%list ->
    requests_of caller pre = RATE_LIMIT E ->
    exists retry_after : Z,
      (run_checks ((caller, t1) :: rest) store).1 !! length pre
        = Some (Deny retry_after)
      /\ retry_after = Qfloor (inject_Z (TIME_WINDOW E) - (t - t1))
      /\ 0 < retry_after.

(** C5 as the specification words it: a request that arrives more than the
    window after the recorded start is allowed and leaves count 1 and the
    new start. *)
Definition allowed_after_expiry (caller : string) (now : Q)
    (store : gmap string RLRecord) : Prop :=
  forall r : RLRecord,
    store !! caller = Some r ->
    (inject_Z (TIME_WINDOW E) < now - time r)%Q ->
    check caller now store = (Allow, <[caller := mkRecord 1 now]> store).

End Reading.

(* ===================================================================== *)
(** ** A development set-up for concrete runs *)
(* ===================================================================== *)

(** A clock that advances one second per reading. *)
Definition demo_clock (n : nat) : Q := inject_Z (Z.of_nat n).

(** A random source that keeps drawing the same bits. *)
Definition demo_bits (_ : nat) : N := 0x1a2b3c4d5e6f70718293a4b5c6d7e8f9%N.

(** A toy token library: the one token ["tok"] carries the claims
    [{"sub": "alice", "exp": 100}] under the default secret. *)
Definition demo_claims : Claims :=
  <["exp" := JInt 100]> {["sub" := JStr "alice"]}.

Definition demo_encode (_ : Claims) (_ _ : string) : string := "tok".

Definition demo_decode (token key : string) (algorithms : list string)
    (now : Z) : Exc + Claims :=
  if String.eqb token "tok" && String.eqb key SECRET_KEY_default
     && bool_decide (ALGORITHM ∈ algorithms)
  then if (100 <? now)%Z then inl (ExpiredSignatureError "Signature has expired.")
       else inr demo_claims
  else inl (JWTError "Signature verification failed.").

(** A backend that is down. *)
Definition backend_down (_ : UpstreamRequest)
  : (RequestErrorKind * string) + UpstreamResponse :=
  inl (ConnectError, "All connection attempts failed").

(** A backend that answers 404 with a plain-text body. *)
Definition backend_404 (_ : UpstreamRequest)
  : (RequestErrorKind * string) + UpstreamResponse :=
  inr (mkUpstream 404 [("content-type", "text/plain")] "no such item").

(** [health.liveness], the one internal route of the set-up. *)
Definition demo_internal (request : Request) : option Response :=
  if String.eqb (url_path request) "/health/live"
  then Some (JSONResponse 200
               (JObj [("status", JStr "ok");
                      ("message", JStr "Gateway is alive")]))
  else None.

Definition demo_env_with (limit : Z)
    (backend : UpstreamRequest -> (RequestErrorKind * string) + UpstreamResponse)
  : Env :=
  mkEnv limit TIME_WINDOW_default SECRET_KEY_default demo_clock demo_bits
        demo_encode demo_decode backend (fun _ => None) demo_internal.

(** The documented defaults, with the backend down. *)
Definition demo_env : Env := demo_env_with RATE_LIMIT_default backend_down.

Definition fresh_world : World := mkWorld ∅ [] (mkState None None) 0 0.

Definition demo_request (verb path : string) (hs : list (string * string))
  : Request :=
  mkRequest verb path ("http://gateway" +:+ path) [] hs "" "10.0.0.1".

(** Five requests of one caller in the first four seconds of a window, and
    a sixth half a second before the window ends. *)
Definition burst : list (string * Q) :=
  [("10.0.0.1", 1%Q); ("10.0.0.1", 2%Q); ("10.0.0.1", 3%Q);
   ("10.0.0.1", 4%Q); ("10.0.0.1", (119 # 2)%Q)].

(** A next stage that answers 200 and touches nothing. *)
Definition next_ok : Handler := fun _ => mret (JSONResponse 200 (JObj [])).

(** A world in which the caller 10.0.0.1 used up a window that started at
    second 0, read at second 61. *)
Definition stale_world : World :=
  mkWorld {["10.0.0.1" := mkRecord 5 0]} [] (mkState None None) 61 0.


(** The [request_id] field of a log entry. *)
Definition entry_request_id (e : LogEntry) : option JValue :=
  match list_find (fun kv => kv.1 = "request_id") (extra_fields e) with
  | Some (_, kv) => Some kv.2
  | None => None
  end.

(** The messages of a log with the request id each entry carries. *)
Definition trail (l : list LogEntry) : list (string * option JValue) :=
  map (fun e => (message e, entry_request_id e)) l.

(** Running a computation step by step. *)
Ltac run :=
  unfold mbind, M_bind, bind, mret, M_ret, ret, raise, try_except.


(* ===================================================================== *)
(** ** Vocabulary for further properties of the code *)
(* ===================================================================== *)

(** Every character of a string passes a test. *)
Fixpoint string_forall (P : ascii -> bool) (s : string) : bool :=
  match s with
  | EmptyString => true
  | String c s' => P c && string_forall P s'
  end.

(** Only whitespace. *)
Definition is_blank (s : string) : bool := string_forall Py.isspace s.

(** No whitespace at all. *)
Definition no_space (s : string) : bool :=
  string_forall (fun c => negb (Py.isspace c)) s.

(** One part in the sense of [str.split()]: not empty, no whitespace. *)
Definition is_word (s : string) : bool := Py.truthy s && no_space s.

(** No comma. *)
Definition no_comma (s : string) : bool :=
  string_forall (fun c => negb (Ascii.eqb c ","%char)) s.

(** A digit of lower-case hexadecimal. *)
Definition is_hex_char (c : ascii) : bool :=
  let n := Py.code c in
  ((48 <=? n) && (n <=? 57) || (97 <=? n) && (n <=? 102))%N.

(** Header names as an ASGI server delivers them: already in lower case. *)
Definition lower_case_names (hs : list (string * string)) : Prop :=
  Forall (fun kv => Py.lower kv.1 = kv.1) hs.

(** The same request with other headers, or from another peer. *)
Definition with_headers (request : Request) (hs : list (string * string))
  : Request :=
  mkRequest (method request) (url_path request) (url request)
            (query_params request) hs (body request) (client_host request).

Definition with_client_host (request : Request) (host : string) : Request :=
  mkRequest (method request) (url_path request) (url request)
            (query_params request) (headers request) (body request) host.

(** How many headers of a raw list carry the name [key]. *)
Definition count_header (key : string) (hs : list (string * string)) : nat :=
  length (filter (fun kv => kv.1 = key) hs).

(** The callers that appear in a trace. *)
Definition callers (trace : list (string * Q)) : gset string :=
  list_to_set (trace.*1).

(** The requests of one caller in a trace, and the decisions a run made
    for them. *)
Definition requests_for (caller : string) (trace : list (string * Q))
  : list (string * Q) :=
  filter (fun x => x.1 = caller) trace.

Definition decisions_for (caller : string) (trace : list (string * Q))
    (ds : list Decision) : list Decision :=
  (filter (fun p => p.1.1 = caller) (zip trace ds)).*2.



(** The request logger around the route, as [main.py] stacks them. *)
Definition logged_route (E : Env) : Handler :=
  RequestLoggingMiddleware_dispatch E (ExceptionMiddleware (router E)).

(** A backend that declares JSON and sends something else. *)
Definition backend_bad_json (_ : UpstreamRequest)
  : (RequestErrorKind * string) + UpstreamResponse :=
  inr (mkUpstream 200 [("Content-Type", "application/json")] "<html>").

(** The world in which the authenticator of [main.py]'s stack runs: a new
    [request.state], and one reading of the clock made by the metrics
    function around it. *)
Definition at_authenticator (w : World) : World :=
  mkWorld (requests_store w) (log w) (mkState None None)
          (S (clock_reads w)) (uuid_draws w).

(** A world in which the caller 10.0.0.1 has used its five requests of
    the window that started at second 0. *)
Definition busy_world : World :=
  mkWorld {["10.0.0.1" := mkRecord 5 0]} [] (mkState None None) 0 0.
(* ===================================================================== *)
(** * Properties *)
(* ===================================================================== *)

(* ===================================================================== *)
(** ** Strings and request ids *)
(* ===================================================================== *)

Lemma length_app (s1 s2 : string) :
  String.length (s1 +:+ s2) = (String.length s1 + String.length s2)%nat.
Proof. induction s1 as [|c s1 IH]; simpl; [reflexivity | now rewrite IH]. Qed.

Lemma hex_length (n : nat) (v : N) : String.length (UUID.hex n v) = n.
Proof.
  revert v; induction n as [|n IH]; intros v; simpl; [reflexivity|].
  rewrite length_app, IH. simpl. lia.
Qed.

Lemma substring_length (i n : nat) (s : string) :
  (i + n <= String.length s)%nat ->
  String.length (String.substring i n s) = n.
Proof.
  revert i n; induction s as [|c s IH]; intros i n H; simpl in *.
  - destruct i, n; simpl; lia.
  - destruct i as [|i].
    + destruct n as [|n]; simpl; [reflexivity|].
      rewrite IH; [reflexivity | lia].
    + apply IH. lia.
Qed.

Lemma take_app (n : nat) (s1 s2 : string) :
  String.length s1 = n -> Py.take n (s1 +:+ s2) = s1.
Proof.
  revert n; induction s1 as [|c s1 IH]; intros n H; simpl in *; subst n.
  - reflexivity.
  - simpl. now rewrite IH.
Qed.

(** The first eight characters of a UUID's text are its first eight
    hexadecimal digits, whatever the random bits. *)
Lemma take8_uuid_str (u : N) :
  Py.take 8 (UUID.str u) = String.substring 0 8 (UUID.hex 32 u).
Proof.
  unfold UUID.str. apply take_app, substring_length.
  rewrite hex_length. lia.
Qed.

Lemma take8_uuid_str_length (u : N) :
  String.length (Py.take 8 (UUID.str u)) = 8%nat.
Proof.
  rewrite take8_uuid_str. apply substring_length. rewrite hex_length. lia.
Qed.

(** Reading back a header that was just set. *)
Lemma headers_get_set_header (name value : string) hs :
  headers_get name (set_header name value hs) = Some value.
Proof.
  unfold set_header.
  induction hs as [|[k v] hs IH]; simpl.
  - now rewrite String.eqb_refl.
  - destruct (String.eqb k (Py.lower name)) eqn:Hk; simpl; rewrite Hk;
      [reflexivity | exact IH].
Qed.

(* ===================================================================== *)
(** ** The request logger *)
(* ===================================================================== *)

Section Logger.

Variable E : Env.

Lemma inbound_or_generated_run (request : Request) (w : World) :
  inbound_or_generated E request w
  = (Ok (chosen_id E request w),
     mkWorld (requests_store w) (log w) (req_state w) (clock_reads w)
             (draws_after request w)).
Proof.
  unfold inbound_or_generated, chosen_id, draws_after, Py.nonempty.
  destruct (headers_get "X-Request-ID" (headers request)) as [v|].
  - destruct (Py.truthy v); [destruct w; reflexivity | reflexivity].
  - reflexivity.
Qed.

(** The whole of [RequestLoggingMiddleware.dispatch] in one equation. *)
Lemma logging_dispatch_run (call_next : Handler) (request : Request)
    (w : World) :
  RequestLoggingMiddleware_dispatch E call_next request w
  = match call_next request (started E request w) with
    | (Ok response, w2) =>
        (Ok (with_request_id (chosen_id E request w) response),
         finished w2 (completed_entry request (chosen_id E request w)
                        response (elapsed E w w2)))
    | (Raise e, w2) =>
        (Raise e,
         finished w2 (failed_entry request (chosen_id E request w)
                        e (elapsed E w w2)))
    end.
Proof.
  destruct w as [st lg rs cr ud].
  unfold RequestLoggingMiddleware_dispatch. run.
  unfold time_time at 1. cbv beta iota.
  rewrite inbound_or_generated_run.
  unfold started, finished, elapsed, set_request_id, emit, time_time.
  cbn [requests_store log req_state clock_reads uuid_draws].
  fold (incoming_entry request
          (chosen_id E request (mkWorld st lg rs cr ud))).
  destruct (call_next request _) as [[response|e] w2]; reflexivity.
Qed.

(** C3 (amended). Whatever the stages wrapped by the request logger
    answer, success or error status alike, the logger returns it with the
    header [X-Request-ID] set to the id of the request: the inbound
    [X-Request-ID] when that header is present and not empty, the
    generated 8-character id otherwise.  The same id is on
    [request.state] and in the start entry before the next stage runs,
    and in the end entry: "Request completed" for a response, "Request
    failed" when the wrapped stages raise, in which case the exception is
    raised again and the logger returns no response. *)
Theorem request_id_on_logged_responses (call_next : Handler)
    (request : Request) (w : World) :
  let rid := chosen_id E request w in
  let w1 := started E request w in
  match Py.nonempty (headers_get "X-Request-ID" (headers request)) with
  | Some v => rid = v
  | None => rid = generated_id E w /\ String.length rid = 8%nat
  end
  /\ request_id (req_state w1) = Some rid
  /\ log w1 = (log w ++ [incoming_entry request rid])%list
  /\ match call_next request w1 with
     | (Ok response, w2) =>
         exists w3,
           RequestLoggingMiddleware_dispatch E call_next request w
             = (Ok (with_request_id rid response), w3)
           /\ headers_get "X-Request-ID"
                (resp_headers (with_request_id rid response)) = Some rid
           /\ status_code (with_request_id rid response) = status_code response
           /\ resp_body (with_request_id rid response) = resp_body response
           /\ log w3 = (log w2 ++ [completed_entry request rid response
                                     (elapsed E w w2)])%list
     | (Raise e, w2) =>
         exists w3,
           RequestLoggingMiddleware_dispatch E call_next request w
             = (Raise e, w3)
           /\ log w3 = (log w2 ++ [failed_entry request rid e
                                     (elapsed E w w2)])%list
     end.
Proof.
  intros rid w1. split; [|split; [|split]].
  - unfold rid, chosen_id.
    destruct (Py.nonempty _); [reflexivity|].
    split; [reflexivity | apply take8_uuid_str_length].
  - reflexivity.
  - reflexivity.
  - rewrite logging_dispatch_run. fold rid w1.
    destruct (call_next request w1) as [[response|e] w2]; eexists.
    + split; [reflexivity|]. split; [apply headers_get_set_header|].
      repeat split.
    + split; reflexivity.
Qed.

(** C10. An inbound [X-Request-ID] header with the empty string as its
    value is not echoed: the logger draws a new UUID and takes the first
    eight characters of its text, and this id is what it puts on
    [request.state], writes to the start entry, and sets on the
    response. *)
Theorem empty_request_id_is_replaced (call_next : Handler)
    (request : Request) (w : World) :
  headers_get "X-Request-ID" (headers request) = Some "" ->
  let rid := generated_id E w in
  String.length rid = 8%nat
  /\ rid <> ""
  /\ (inbound_or_generated E request w).1 = Ok rid
  /\ uuid_draws (inbound_or_generated E request w).2 = S (uuid_draws w)
  /\ request_id (req_state (started E request w)) = Some rid
  /\ log (started E request w) = (log w ++ [incoming_entry request rid])%list
  /\ RequestLoggingMiddleware_dispatch E call_next request w
     = match call_next request (started E request w) with
       | (Ok response, w2) =>
           (Ok (with_request_id rid response),
            finished w2 (completed_entry request rid response (elapsed E w w2)))
       | (Raise e, w2) =>
           (Raise e, finished w2 (failed_entry request rid e (elapsed E w w2)))
       end.
Proof.
  intros Hhdr rid.
  assert (Hlen : String.length rid = 8%nat) by apply take8_uuid_str_length.
  assert (Hid : chosen_id E request w = rid).
  { unfold chosen_id. now rewrite Hhdr. }
  split; [exact Hlen|]. split.
  { intros Hempty. rewrite Hempty in Hlen. discriminate. }
  rewrite inbound_or_generated_run, logging_dispatch_run.
  unfold started. rewrite Hid. unfold draws_after. rewrite Hhdr.
  repeat split.
Qed.

End Logger.

(* ===================================================================== *)
(** ** The rate limiter *)
(* ===================================================================== *)

Section Limiter.

Variable E : Env.

(** [RateLimitMiddleware.dispatch] is [check] on the caller's address and
    the clock reading: a denial answers 429, an allowance hands the
    request to the next stage. *)
Lemma rate_limit_dispatch_run (call_next : Handler) (request : Request)
    (w : World) :
  RateLimitMiddleware_dispatch E call_next request w
  = match (check E (get_client_ip request) (clock E (clock_reads w))
                 (requests_store w)).1 with
    | Deny retry_after =>
        (Ok (too_many_requests retry_after), limited E request w)
    | Allow => call_next request (limited E request w)
    end.
Proof.
  destruct w as [st lg rs cr ud].
  unfold RateLimitMiddleware_dispatch, limited, limiter_entries, check,
    next_record, resets, remaining.
  run.
  unfold get_request_id, time_time, store_get, store_set, log_info,
    log_warning, emit.
  cbn [requests_store log req_state clock_reads uuid_draws fst snd].
  set (now := clock E cr).
  set (ip := get_client_ip request).
  destruct (Py.gt (now - time (default (mkRecord 0 now) (st !! ip)))
                  (inject_Z (TIME_WINDOW E))) eqn:Hreset;
    cbn [requests_store log req_state clock_reads uuid_draws count time];
    match goal with
    | |- context [ (?n >? RATE_LIMIT E) ] =>
        destruct (n >? RATE_LIMIT E) eqn:Hlim
    end;
    cbn [requests_store log req_state clock_reads uuid_draws];
    rewrite <- ?app_assoc; reflexivity.
Qed.

Lemma gt_true (a b : Q) : Py.gt a b = true <-> (b < a)%Q.
Proof.
  unfold Py.gt. rewrite negb_true_iff. split.
  - intros H. apply Qnot_le_lt. intros Hle.
    apply Qle_bool_iff in Hle. congruence.
  - intros H. destruct (Qle_bool a b) eqn:Hb; [|reflexivity].
    apply Qle_bool_iff in Hb. exfalso. exact (Qlt_not_le _ _ H Hb).
Qed.

Lemma gt_false (a b : Q) : Py.gt a b = false <-> (a <= b)%Q.
Proof.
  unfold Py.gt. rewrite negb_false_iff. apply Qle_bool_iff.
Qed.

(** On a value that is not negative, [int] rounds down. *)
Lemma int_floor (x : Q) : (0 <= x)%Q -> Py.int x = Qfloor x.
Proof.
  destruct x as [n d]. unfold Qle, Py.int, Qfloor. simpl. intros H.
  apply Z.quot_div_nonneg; lia.
Qed.

Lemma floor_nonneg (x : Q) : (0 <= x)%Q -> 0 <= Qfloor x.
Proof.
  intros H. change 0 with (Qfloor (inject_Z 0)) at 1.
  rewrite <- (Qfloor_Z 0) at 1. now apply Qfloor_resp_le.
Qed.

Lemma floor_pos (x : Q) : 0 < Qfloor x <-> (1 <= x)%Q.
Proof.
  split.
  - intros H. apply Qle_trans with (inject_Z (Qfloor x)); [|apply Qfloor_le].
    change 1%Q with (inject_Z 1). rewrite <- Zle_Qle. lia.
  - intros H. apply Qfloor_resp_le in H.
    change 1%Q with (inject_Z 1) in H. rewrite Qfloor_Z in H. lia.
Qed.

(** The request that opens a window is counted as its first. *)
Lemma next_record_opens (store : gmap string RLRecord) (c : string) (t1 : Q) :
  window_opens E store c t1 ->
  next_record E t1 (store !! c) = mkRecord 1 t1.
Proof.
  unfold window_opens, next_record.
  destruct (store !! c) as [r|]; simpl.
  - intros ->. reflexivity.
  - intros _. destruct (Py.gt _ _); reflexivity.
Qed.

(** A later request in the same window adds one to the count and keeps the
    window start. *)
Lemma next_record_in_window (n : Z) (t1 t : Q) :
  in_window E t1 t ->
  next_record E t (Some (mkRecord n t1)) = mkRecord (n + 1) t1.
Proof.
  unfold in_window, next_record. intros H. simpl.
  apply gt_false in H. now rewrite H.
Qed.

(** A request of one caller leaves the records of the others alone. *)
Lemma check_other (c c' : string) (now : Q) (store : gmap string RLRecord) :
  c' <> c -> (check E c' now store).2 !! c = store !! c.
Proof. intros H. unfold check. simpl. now rewrite lookup_insert_ne. Qed.

Lemma check_same (c : string) (now : Q) (store : gmap string RLRecord) :
  (check E c now store).2 !! c = Some (next_record E now (store !! c)).
Proof. unfold check. simpl. now rewrite lookup_insert_eq. Qed.

Lemma run_checks_cons (c : string) (now : Q) trace store :
  run_checks E ((c, now) :: trace) store
  = ((check E c now store).1
       :: (run_checks E trace (check E c now store).2).1,
     (run_checks E trace (check E c now store).2).2).
Proof.
  cbn [run_checks]. destruct (check E c now store) as [d s'].
  cbn [fst snd]. destruct (run_checks E trace s') as [ds s'']. reflexivity.
Qed.

Lemma requests_of_cons_same (c : string) (t : Q) trace :
  requests_of c ((c, t) :: trace) = requests_of c trace + 1.
Proof.
  unfold requests_of. rewrite filter_cons_True by reflexivity.
  simpl length. lia.
Qed.

Lemma requests_of_cons_other (c c' : string) (t : Q) trace :
  c' <> c -> requests_of c ((c', t) :: trace) = requests_of c trace.
Proof.
  intros H. unfold requests_of. now rewrite filter_cons_False.
Qed.

(** Within its window, the decision for the caller's next request and the
    record it leaves depend only on how many of its requests came
    before. *)
Lemma run_checks_in_window (c : string) (t1 : Q) (n : Z) :
  forall (trace : list (string * Q)) (store : gmap string RLRecord),
  store !! c = Some (mkRecord n t1) ->
  (forall t, (c, t) ∈ trace -> in_window E t1 t) ->
  forall (pre : list (string * Q)) t post, trace = (pre ++ (c, t) :: post)%list ->
    (run_checks E trace store).1 !! length pre
    = Some (if bool_decide (n + requests_of c pre < RATE_LIMIT E) then Allow
            else Deny (remaining E t (mkRecord (n + requests_of c pre + 1) t1))).
Proof.
  intros trace. revert n.
  induction trace as [|[c' t'] trace IH]; intros n store Hs Hin pre t post Heq.
  - destruct pre; discriminate.
  - rewrite run_checks_cons.
    destruct pre as [|[c0 t0] pre]; simpl in Heq; inversion Heq; subst.
    + (* the request in question is the head *)
      cbn [length]. 
      assert (Hd : (check E c t store).1 =
         if bool_decide (n + requests_of c [] < RATE_LIMIT E) then Allow
            else Deny (remaining E t (mkRecord (n + requests_of c [] + 1) t1))).
      { unfold check. cbn [fst]. rewrite Hs.
        rewrite next_record_in_window by (apply Hin; left).
        unfold requests_of. cbn [filter list_filter length Z.of_nat count].
        rewrite Z.add_0_r.
        case_bool_decide; destruct (n + 1 >? RATE_LIMIT E) eqn:Hc;
          try reflexivity; lia. }
      rewrite <- Hd. reflexivity.
    + cbn [length fst].
      change ((run_checks E (pre ++ (c, t) :: post) (check E c0 t0 store).2).1
                !! length pre
              = Some (if bool_decide (n + requests_of c ((c0, t0) :: pre)
                                      < RATE_LIMIT E) then Allow
                      else Deny (remaining E t
                             (mkRecord (n + requests_of c ((c0, t0) :: pre) + 1)
                                       t1)))).
      destruct (decide (c0 = c)) as [->|Hne].
      * rewrite requests_of_cons_same.
        rewrite (IH (n + 1) (check E c t0 store).2) with (t := t) (post := post).
        -- replace (n + 1 + requests_of c pre)
             with (n + (requests_of c pre + 1)) by lia.
           reflexivity.
        -- rewrite check_same, Hs.
           now rewrite next_record_in_window by (apply Hin; left).
        -- intros t2 H2. apply Hin. now right.
        -- reflexivity.
      * rewrite requests_of_cons_other by exact Hne.
        rewrite (IH n (check E c0 t0 store).2) with (t := t) (post := post).
        -- reflexivity.
        -- now rewrite check_other.
        -- intros t2 H2. apply Hin. now right.
        -- reflexivity.
Qed.


Lemma remaining_floor (k : Z) (t1 t : Q) :
  in_window E t1 t ->
  remaining E t (mkRecord k t1)
  = Qfloor (inject_Z (TIME_WINDOW E) - (t - t1)).
Proof.
  unfold in_window, remaining. intros H. simpl. apply int_floor. lra.
Qed.

(** C4 (amended). For every caller, among the requests that fall into the
    window its request at [t1] opens, a request is allowed exactly when
    fewer than [RATE_LIMIT] requests of the caller precede it, so the first
    [limit] pass (the comparison is strict) and the [limit+1]-th is denied;
    a denial tells [TIME_WINDOW - (t - t1)] rounded down, which is never
    negative and is positive exactly when at least a full second of the
    window remains, [t - t1 <= TIME_WINDOW - 1].  Requests of other callers
    may be interleaved at will.  The decisions are those of the
    middleware: a denial is its 429 answer, an allowance its call of the
    next stage. *)
Theorem fixed_window_limit (c : string) (t1 : Q) (rest : list (string * Q))
    (store : gmap string RLRecord) :
  window_opens E store c t1 ->
  (forall t, (c, t) ∈ (c, t1) :: rest -> in_window E t1 t) ->
  (forall (call_next : Handler) (request : Request) (w : World),
     RateLimitMiddleware_dispatch E call_next request w
     = match (check E (get_client_ip request) (clock E (clock_reads w))
                    (requests_store w)).1 with
       | Deny retry_after =>
           (Ok (too_many_requests retry_after), limited E request w)
       | Allow => call_next request (limited E request w)
       end)
  /\ forall (pre : list (string * Q)) (t : Q) (post : list (string * Q)),
    (c, t1) :: rest = (pre ++ (c, t) :: post)%list ->
    let retry_after := Qfloor (inject_Z (TIME_WINDOW E) - (t - t1)) in
    (run_checks E ((c, t1) :: rest) store).1 !! length pre
      = Some (if bool_decide (requests_of c pre < RATE_LIMIT E) then Allow
              else Deny retry_after)
    /\ 0 <= retry_after
    /\ (0 < retry_after <-> (t - t1 <= inject_Z (TIME_WINDOW E) - 1)%Q).
Proof.
  intros Hopen Hin. split; [apply rate_limit_dispatch_run|].
  intros pre t post Heq retry_after.
  assert (Hw : in_window E t1 t).
  { apply Hin. rewrite Heq. apply elem_of_app. right. left. }
  split; [|split].
  - rewrite run_checks_cons.
    destruct pre as [|[c0 t0] pre]; simpl in Heq.
    + injection Heq as Ht Hr. subst t post.
      cbn [length]. unfold check. cbn [fst].
      rewrite next_record_opens by exact Hopen.
      rewrite remaining_floor by exact Hw. cbn [count].
      change ((?d :: ?l) !! 0%nat) with (Some d). f_equal.
      unfold requests_of. cbn [filter list_filter length Z.of_nat].
      case_bool_decide; destruct (1 >? RATE_LIMIT E) eqn:Hc;
        try reflexivity; lia.
    + injection Heq as Hc Ht Hr. subst c0 t0 rest.
      cbn [length fst].
      change ((run_checks E (pre ++ (c, t) :: post) (check E c t1 store).2).1
                !! length pre
              = Some (if bool_decide (requests_of c ((c, t1) :: pre)
                                      < RATE_LIMIT E) then Allow
                      else Deny retry_after)).
      rewrite (run_checks_in_window c t1 1) with (t := t) (post := post).
      * rewrite remaining_floor by exact Hw.
        rewrite requests_of_cons_same.
        replace (1 + requests_of c pre) with (requests_of c pre + 1) by lia.
        reflexivity.
      * rewrite check_same. now rewrite next_record_opens.
      * intros t2 H2. apply Hin. now right.
      * reflexivity.
  - apply floor_nonneg. unfold in_window in Hw. lra.
  - unfold retry_after. rewrite floor_pos. unfold in_window in Hw.
    split; intros H; lra.
Qed.

(** The waiting time told right after a reset is the whole window. *)
Lemma int_whole (x : Q) (z : Z) : (x == inject_Z z)%Q -> Py.int x = z.
Proof.
  destruct x as [n d]. unfold Qeq, Py.int. simpl. intros H.
  rewrite Z.mul_1_r in H. rewrite H. apply Z.quot_mul. discriminate.
Qed.

Lemma remaining_fresh (k : Z) (now : Q) :
  remaining E now (mkRecord k now) = TIME_WINDOW E.
Proof. unfold remaining. apply int_whole. simpl. ring. Qed.

(** Requests of other callers, however many and at whatever times, leave
    a caller's record as it was. *)
Lemma run_checks_others (c : string) (trace : list (string * Q)) :
  forall store : gmap string RLRecord,
  requests_of c trace = 0 ->
  (run_checks E trace store).2 !! c = store !! c.
Proof.
  induction trace as [|[c' t'] trace IH]; intros store H0.
  - reflexivity.
  - rewrite run_checks_cons. cbn [snd].
    destruct (decide (c' = c)) as [->|Hne].
    + rewrite requests_of_cons_same in H0. unfold requests_of in H0. lia.
    + rewrite requests_of_cons_other in H0 by exact Hne.
      rewrite IH by exact H0. now apply check_other.
Qed.

(** C5 (amended). A request that arrives strictly more than [TIME_WINDOW]
    after the caller's recorded window start leaves the caller's record at
    count 1 with the request's time as the new start, whatever the
    configured limit is.  When the limit is at least 1 the request is
    handed to the next stage; when it is 0 or less the request is answered
    429 after the reset, with the whole window as the time to wait.  The
    reset is made by that request alone: a request of any other caller, at
    whatever time, and any run of such requests, leaves the stale record as
    it was. *)
Theorem lazy_window_reset (call_next : Handler) (request : Request)
    (w : World) (r : RLRecord) :
  let c := get_client_ip request in
  let now := clock E (clock_reads w) in
  requests_store w !! c = Some r ->
  (inject_Z (TIME_WINDOW E) < now - time r)%Q ->
  requests_store (limited E request w)
    = <[c := mkRecord 1 now]> (requests_store w)
  /\ (1 <= RATE_LIMIT E ->
      RateLimitMiddleware_dispatch E call_next request w
      = call_next request (limited E request w))
  /\ (RATE_LIMIT E <= 0 ->
      RateLimitMiddleware_dispatch E call_next request w
      = (Ok (too_many_requests (TIME_WINDOW E)), limited E request w))
  /\ (forall (c' : string) (now' : Q),
        c' <> c -> (check E c' now' (requests_store w)).2 !! c = Some r)
  /\ (forall trace : list (string * Q),
        requests_of c trace = 0 ->
        (run_checks E trace (requests_store w)).2 !! c = Some r).
Proof.
  intros c now Hs Hexp.
  assert (Hrec : next_record E now (requests_store w !! c) = mkRecord 1 now).
  { apply next_record_opens. unfold window_opens. fold c. rewrite Hs.
    now apply gt_true. }
  split; [|split; [|split; [|split]]].
  - unfold limited, check. cbn [requests_store snd]. fold c now.
    now rewrite Hrec.
  - intros Hlim. rewrite rate_limit_dispatch_run. fold c now.
    unfold check. cbn [fst]. rewrite Hrec. cbn [count].
    destruct (1 >? RATE_LIMIT E) eqn:Hc; [lia | reflexivity].
  - intros Hlim. rewrite rate_limit_dispatch_run. fold c now.
    unfold check. cbn [fst]. rewrite Hrec. cbn [count].
    destruct (1 >? RATE_LIMIT E) eqn:Hc; [|lia].
    now rewrite remaining_fresh.
  - intros c' now' Hne. now rewrite check_other.
  - intros trace H0. now rewrite run_checks_others.
Qed.

End Limiter.

(** C4, the theorem at work: with the default limit 5 and window 60, the
    sixth request of a caller, 59.5 seconds into the window, is denied and
    told to wait 0 seconds. *)
Lemma fixed_window_limit_witness :
  window_opens demo_env ∅ "10.0.0.1" 0
  /\ (run_checks demo_env (("10.0.0.1", 0%Q) :: burst) ∅).1 !! 5%nat
     = Some (Deny 0)
  /\ ~ ((119 # 2) - 0 <= inject_Z (TIME_WINDOW demo_env) - 1)%Q.
Proof.
  assert (Hopen : window_opens demo_env ∅ "10.0.0.1" 0) by exact I.
  assert (Hin : forall t, ("10.0.0.1", t) ∈ ("10.0.0.1", 0%Q) :: burst ->
                          in_window demo_env 0 t).
  { intros t Ht. unfold burst in Ht.
    repeat (apply elem_of_cons in Ht as [Ht|Ht];
            [injection Ht as ->; apply Qle_bool_iff; reflexivity|]).
    apply elem_of_nil in Ht. destruct Ht. }
  destruct (fixed_window_limit demo_env "10.0.0.1" 0 burst ∅ Hopen Hin)
    as (_ & Hrun).
  destruct (Hrun (("10.0.0.1", 0%Q) :: firstn 4 burst) (119 # 2) [] eq_refl)
    as (Hd & _ & Hpos).
  split; [exact Hopen | split].
  - exact Hd.
  - intros Hle. apply Hpos in Hle. vm_compute in Hle. discriminate.
Defined.

(** C4, counterexample to the claim as stated: with the defaults, five
    requests at seconds 0 to 4 and a sixth at second 59.5 of the same
    window, the sixth is denied with [retry_after = 0], which is not
    positive. *)
Lemma positive_wait_fails :
  ~ denied_with_positive_wait demo_env "10.0.0.1" 0 burst ∅.
Proof.
  intros H.
  destruct (H I) with (pre := ("10.0.0.1", 0%Q) :: firstn 4 burst)
                      (t := (119 # 2)%Q) (post := @nil (string * Q))
    as (retry_after & _ & Hr & Hpos).
  - intros t Ht. unfold burst in Ht.
    repeat (apply elem_of_cons in Ht as [Ht|Ht];
            [injection Ht as ->; apply Qle_bool_iff; reflexivity|]).
    apply elem_of_nil in Ht. destruct Ht.
  - reflexivity.
  - reflexivity.
  - vm_compute in Hr. subst retry_after. lia.
Qed.

(** C5, the theorem at work: the caller's window of second 0 is used up;
    its request at second 61 resets the record and passes under the
    default limit. *)
Lemma lazy_window_reset_witness :
  requests_store stale_world !! "10.0.0.1" = Some (mkRecord 5 0)
  /\ RateLimitMiddleware_dispatch demo_env next_ok
       (demo_request "GET" "/api/items" []) stale_world
     = next_ok (demo_request "GET" "/api/items" [])
         (limited demo_env (demo_request "GET" "/api/items" []) stale_world)
  /\ requests_store
       (limited demo_env (demo_request "GET" "/api/items" []) stale_world)
     = <["10.0.0.1" := mkRecord 1 61]> (requests_store stale_world).
Proof.
  destruct (lazy_window_reset demo_env next_ok
              (demo_request "GET" "/api/items" []) stale_world (mkRecord 5 0))
    as (Hstore & Hpass & _).
  - reflexivity.
  - reflexivity.
  - split; [reflexivity | split; [apply Hpass | exact Hstore]].
    vm_compute. discriminate.
Defined.

(** C5, counterexample to the claim as stated: with [RATE_LIMIT = 0] the
    request that arrives after the window has passed resets the record
    and is denied all the same. *)
Lemma expiry_does_not_allow :
  ~ allowed_after_expiry (demo_env_with 0 backend_down) "10.0.0.1" 61
      {["10.0.0.1" := mkRecord 1 0]}.
Proof.
  intros H.
  specialize (H (mkRecord 1 0)).
  assert (Hrun : (check (demo_env_with 0 backend_down) "10.0.0.1" 61
                    {["10.0.0.1" := mkRecord 1 0]}).1 = Deny 60)
    by (vm_compute; reflexivity).
  rewrite H in Hrun.
  - discriminate.
  - reflexivity.
  - reflexivity.
Qed.

(* ===================================================================== *)
(** ** The token authenticator *)
(* ===================================================================== *)

Section Authenticator.

Variable E : Env.

(** [AuthMiddleware.dispatch] on an internal path. *)
Lemma auth_dispatch_skip (call_next : Handler) (request : Request) (w : World) :
  is_internal request = true ->
  AuthMiddleware_dispatch E call_next request w
  = call_next request (after_skip request w).
Proof.
  unfold is_internal, AuthMiddleware_dispatch. intros ->. run.
  destruct w; reflexivity.
Qed.

(** [AuthMiddleware.dispatch] on any other path: the rejection that goes
    with the outcome, or the next stage. *)
Lemma auth_dispatch_run (call_next : Handler) (request : Request) (w : World) :
  is_internal request = false ->
  AuthMiddleware_dispatch E call_next request w
  = match rejection (auth_outcome E request w) with
    | Some response => (Ok response, after_auth E request w)
    | None => call_next request (after_auth E request w)
    end.
Proof.
  destruct w as [st lg rs cr ud].
  unfold is_internal, AuthMiddleware_dispatch, after_auth, auth_outcome,
    auth_entry, authenticate, decodes, bearer_form.
  intros ->. run.
  unfold get_request_id, log_warning, log_info, log_error, emit, set_user,
    jwt_decode_now, time_time.
  run.
  cbn [requests_store log req_state clock_reads uuid_draws].
  destruct (headers_get "Authorization" (headers request)) as [h|];
    cbn [Py.nonempty default]; [destruct (Py.truthy h) eqn:Hh|];
    try reflexivity.
  destruct ((length (Py.split h) =? 2)%nat) eqn:Hlen; cbn [negb orb andb];
    [|reflexivity].
  destruct (String.eqb (Py.lower (nth 0 (Py.split h) "")) "bearer") eqn:Hb;
    cbn [negb]; [|reflexivity].
  cbv beta iota zeta.
  cbn [requests_store log req_state clock_reads uuid_draws].
  destruct (jwt_decode E (nth 1 (Py.split h) "") (SECRET_KEY E) [ALGORITHM]
              (Qfloor (clock E cr))) as [e|payload];
    [destruct e|]; reflexivity.
Qed.


Lemma bearer_form_nonempty (v : string) : bearer_form v = true -> Py.truthy v = true.
Proof. destruct v; [discriminate | reflexivity]. Qed.


(** C7. A request whose path starts with [/health] or [/metrics] is handed
    to the next stage whatever its headers: no token is decoded (no claims
    are attached, the clock is not read), and neither the secret nor the
    token library has any part in the result. *)
Theorem internal_paths_skip_verification (call_next : Handler)
    (request : Request) (w : World) :
  Py.startswith (url_path request) "/health" = true
  \/ Py.startswith (url_path request) "/metrics" = true ->
  AuthMiddleware_dispatch E call_next request w
    = call_next request (after_skip request w)
  /\ req_state (after_skip request w) = req_state w
  /\ clock_reads (after_skip request w) = clock_reads w
  /\ (forall E' : Env,
        AuthMiddleware_dispatch E' call_next request w
        = AuthMiddleware_dispatch E call_next request w).
Proof.
  intros Hpath.
  assert (Hint : is_internal request = true).
  { unfold is_internal. destruct Hpath as [-> | ->]; [reflexivity|].
    apply orb_true_r. }
  repeat split.
  - now apply auth_dispatch_skip.
  - intros E'. unfold is_internal, AuthMiddleware_dispatch in *.
    now rewrite Hint.
Qed.



End Authenticator.



(** C7, the theorem at work: [/health/live] without any header passes the
    authenticator. *)
Lemma internal_paths_skip_verification_witness :
  AuthMiddleware_dispatch demo_env next_ok
    (demo_request "GET" "/health/live" []) fresh_world
  = next_ok (demo_request "GET" "/health/live" [])
      (after_skip (demo_request "GET" "/health/live" []) fresh_world).
Proof.
  destruct (internal_paths_skip_verification demo_env next_ok
              (demo_request "GET" "/health/live" []) fresh_world
              (or_introl eq_refl)) as (Hrun & _).
  exact Hrun.
Defined.



(* ===================================================================== *)
(** ** The reverse proxy *)
(* ===================================================================== *)

Section Proxy.

Variable E : Env.

(** [proxy] in one equation. *)
Lemma proxy_run (request : Request) (path : string) (w : World) :
  proxy E request path w
  = match send E (upstream_request request path) with
    | inl (kind, msg) =>
        (Raise (HTTPException 503 ("Backend service unavailable: " +:+ msg)), w)
    | inr response =>
        if declares_json response
        then match json_loads E (up_text response) with
             | Some v => (Ok v, w)
             | None => (Raise (PyException "JSONDecodeError"), w)
             end
        else (Ok (JStr (up_text response)), w)
    end.
Proof.
  unfold proxy, client_request, response_json, declares_json. run.
  destruct (send E (upstream_request request path)) as [[kind msg]|response];
    [reflexivity|].
  cbv beta iota.
  destruct (Py.startswith _ _); [|reflexivity].
  destruct (json_loads E (up_text response)); reflexivity.
Qed.

(** The route with FastAPI's exception handler around it. *)
Lemma route_run (request : Request) (w : World) :
  proxied request = true ->
  ExceptionMiddleware (router E) request w
  = match proxy E request (path_param request) w with
    | (Ok v, w') => (Ok (JSONResponse 200 v), w')
    | (Raise (HTTPException status d), w') =>
        (Ok (JSONResponse status (detail d)), w')
    | (Raise e, w') => (Raise e, w')
    end.
Proof.
  unfold proxied, ExceptionMiddleware, router. intros H.
  apply andb_true_iff in H as [-> ->]. run.
  destruct (proxy E request (path_param request) w) as [[v|e] w'];
    [reflexivity | destruct e; reflexivity].
Qed.

(** What the gateway sends upstream: the method, the query parameters and
    the body as they came, one header per name, the backend base joined
    with the path, and a timeout of 30 seconds. *)
Lemma forwarded_unchanged (request : Request) (path : string) :
  let r := upstream_request request path in
  u_method r = method request
  /\ u_url r = BACKEND_SERVICE +:+ "/" +:+ path
  /\ u_params r = query_params request
  /\ u_headers r = dict_of_headers (headers request)
  /\ u_content r = body request
  /\ u_timeout r = 30%Q.
Proof. repeat split. Qed.

(** C9. When the exchange with the backend fails at the network level
    (httpx raises a [RequestError]: connection refused, DNS failure, or
    one of the timeouts of the 30-second bound), [proxy] raises
    [HTTPException] 503 with the detail "Backend service unavailable: ..."
    and the gateway answers 503 with that detail.  The kind of failure
    has no part in the answer: a timeout and a refused connection with
    the same message are answered identically. *)
Theorem backend_unreachable_is_503 (request : Request) (w : World)
    (kind : RequestErrorKind) (msg : string) :
  proxied request = true ->
  send E (upstream_request request (path_param request)) = inl (kind, msg) ->
  u_timeout (upstream_request request (path_param request)) = 30%Q
  /\ proxy E request (path_param request) w
     = (Raise (HTTPException 503 ("Backend service unavailable: " +:+ msg)), w)
  /\ ExceptionMiddleware (router E) request w
     = (Ok (JSONResponse 503
              (detail ("Backend service unavailable: " +:+ msg))), w)
  /\ (forall (E' : Env) (kind' : RequestErrorKind),
        send E' (upstream_request request (path_param request))
          = inl (kind', msg) ->
        ExceptionMiddleware (router E') request w
        = ExceptionMiddleware (router E) request w).
Proof.
  intros Hp Hsend.
  assert (Hproxy : forall E0 k,
            send E0 (upstream_request request (path_param request))
              = inl (k, msg) ->
            ExceptionMiddleware (router E0) request w
            = (Ok (JSONResponse 503
                     (detail ("Backend service unavailable: " +:+ msg))), w)).
  { intros E0 k H0. unfold proxied, ExceptionMiddleware, router in *.
    apply andb_true_iff in Hp as [-> ->]. run.
    unfold proxy, client_request. run. now rewrite H0. }
  split; [reflexivity|]. split; [|split].
  - rewrite proxy_run, Hsend. reflexivity.
  - now apply (Hproxy E kind).
  - intros E' kind' H'. rewrite (Hproxy E' kind' H'). symmetry.
    now apply (Hproxy E kind).
Qed.

(** Whatever status the backend answers with, the route answers 200. *)
Lemma upstream_status_is_dropped (request : Request) (w : World)
    (response : UpstreamResponse) :
  proxied request = true ->
  send E (upstream_request request (path_param request)) = inr response ->
  ExceptionMiddleware (router E) request w
  = if declares_json response
    then match json_loads E (up_text response) with
         | Some v => (Ok (JSONResponse 200 v), w)
         | None => (Raise (PyException "JSONDecodeError"), w)
         end
    else (Ok (JSONResponse 200 (JStr (up_text response))), w).
Proof.
  intros Hp Hsend. rewrite route_run by exact Hp.
  rewrite proxy_run, Hsend.
  destruct (declares_json response); [|reflexivity].
  destruct (json_loads E (up_text response)); reflexivity.
Qed.

End Proxy.

(** C9, the theorem at work: [GET /api/items] with the backend down. *)
Lemma backend_unreachable_is_503_witness :
  ExceptionMiddleware (router demo_env)
    (demo_request "GET" "/api/items" []) fresh_world
  = (Ok (JSONResponse 503
           (detail "Backend service unavailable: All connection attempts failed")),
     fresh_world).
Proof.
  destruct (backend_unreachable_is_503 demo_env
              (demo_request "GET" "/api/items" []) fresh_world
              ConnectError "All connection attempts failed" eq_refl eq_refl)
    as (_ & _ & Hroute & _).
  exact Hroute.
Defined.

(** C10, the theorem at work: [X-Request-ID:] with an empty value; the
    logger uses the first eight digits of the UUID it draws. *)
Lemma empty_request_id_is_replaced_witness :
  headers_get "X-Request-ID"
    (headers (demo_request "GET" "/health/live" [("x-request-id", "")]))
    = Some ""
  /\ (inbound_or_generated demo_env
        (demo_request "GET" "/health/live" [("x-request-id", "")])
        fresh_world).1 = Ok "1a2b3c4d".
Proof.
  split; [reflexivity|].
  destruct (empty_request_id_is_replaced demo_env next_ok
              (demo_request "GET" "/health/live" [("x-request-id", "")])
              fresh_world eq_refl) as (_ & _ & Hid & _).
  exact Hid.
Defined.

(* ===================================================================== *)
(** ** The pipeline of [main.py] *)
(* ===================================================================== *)

(** The stack Starlette builds from [main.py], outermost stage first. *)
Lemma serve_unfold (E : Env) (request : Request) (w : World) :
  serve E request w
  = ServerErrorMiddleware
      (metrics_middleware E
         (AuthMiddleware_dispatch E
            (RateLimitMiddleware_dispatch E
               (RequestLoggingMiddleware_dispatch E
                  (ExceptionMiddleware (router E))))))
      request (enter w).
Proof. reflexivity. Qed.

(** A request without credentials for a protected path is answered by the
    authenticator before the limiter and the logger see it. *)
Lemma unauthenticated_never_reaches_logger (E : Env) (request : Request)
    (w : World) :
  is_internal request = false ->
  Py.nonempty (headers_get "Authorization" (headers request)) = None ->
  (serve E request w).1
  = Ok (JSONResponse 401 (detail "Authorization header missing")).
Proof.
  intros Hint Hhdr. rewrite serve_unfold.
  unfold ServerErrorMiddleware, metrics_middleware. run.
  unfold time_time at 1. cbv beta iota.
  rewrite auth_dispatch_run by exact Hint.
  unfold auth_outcome, authenticate. rewrite Hhdr. reflexivity.
Qed.

(** C1 (the code at the failing input). [add_middleware] puts each class
    in front of the ones added before, so the stage added last runs
    first: the stack of [main.py] is metrics, authenticator, rate limiter,
    request logger, router.  On [GET /health/live] the authenticator and
    the limiter write their entries before the logger has attached an id
    (they log the id "unknown"), and a request without credentials is
    answered 401 by the authenticator with no [X-Request-ID] header and
    no entry of the logger. *)
Theorem authenticator_runs_before_logger :
  user_middleware app
    = [MetricsMiddleware; AuthMiddleware; RateLimitMiddleware;
       RequestLoggingMiddleware]
  /\ (forall (E : Env) (request : Request) (w : World),
        serve E request w
        = ServerErrorMiddleware
            (metrics_middleware E
               (AuthMiddleware_dispatch E
                  (RateLimitMiddleware_dispatch E
                     (RequestLoggingMiddleware_dispatch E
                        (ExceptionMiddleware (router E))))))
            request (enter w))
  /\ trail (log (serve demo_env (demo_request "GET" "/health/live" [])
                  fresh_world).2)
     = [("Skipping auth for internal endpoint", Some (JStr "unknown"));
        ("Rate limit check", Some (JStr "unknown"));
        ("Incoming request", Some (JStr "1a2b3c4d"));
        ("Request completed", Some (JStr "1a2b3c4d"))]
  /\ (serve demo_env (demo_request "GET" "/api/items" []) fresh_world).1
     = Ok (JSONResponse 401 (detail "Authorization header missing"))
  /\ headers_get "X-Request-ID"
       (resp_headers (JSONResponse 401 (detail "Authorization header missing")))
     = None
  /\ trail (log (serve demo_env (demo_request "GET" "/api/items" [])
                  fresh_world).2)
     = [("Missing authorization header", Some (JStr "unknown"))].
Proof.
  split; [reflexivity|]. split; [intros E request w; apply serve_unfold|].
  repeat split; vm_compute; reflexivity.
Qed.

(** C2 (the code at the failing input). [proxy] never looks at the status
    of the backend's answer: what it returns is decided by the content
    type and the body alone, and FastAPI sends it with status 200.  The
    backend answers [GET /api/items] with 404 and a plain-text body; the
    gateway answers 200 with that text as a JSON string. *)
Theorem upstream_404_is_answered_200 :
  (forall (E : Env) (request : Request) (path : string) (w : World),
     proxy E request path w
     = match send E (upstream_request request path) with
       | inl (kind, msg) =>
           (Raise (HTTPException 503
                     ("Backend service unavailable: " +:+ msg)), w)
       | inr response =>
           if declares_json response
           then match json_loads E (up_text response) with
                | Some v => (Ok v, w)
                | None => (Raise (PyException "JSONDecodeError"), w)
                end
           else (Ok (JStr (up_text response)), w)
       end)
  /\ send (demo_env_with 5 backend_404)
       (upstream_request
          (demo_request "GET" "/api/items" [("authorization", "Bearer tok")])
          "items")
     = inr (mkUpstream 404 [("content-type", "text/plain")] "no such item")
  /\ (serve (demo_env_with 5 backend_404)
        (demo_request "GET" "/api/items" [("authorization", "Bearer tok")])
        fresh_world).1
     = Ok (mkResponse 200
             [("content-type", "application/json");
              ("x-request-id", "1a2b3c4d")]
             (JSONBody (JStr "no such item"))).
Proof.
  split; [intros E request path w; apply proxy_run|].
  split; [reflexivity|]. vm_compute. reflexivity.
Qed.

(** C3, counterexample to the claim as stated: the client sends
    [X-Request-ID:] with an empty value on [GET /health/live]; the
    response carries the generated id, not the value the client sent. *)
Lemma empty_inbound_id_is_not_echoed :
  ~ echoes_request_id demo_env
      (demo_request "GET" "/health/live" [("x-request-id", "")]) fresh_world.
Proof.
  intros H.
  assert (Hrun : exists r,
            (serve demo_env
               (demo_request "GET" "/health/live" [("x-request-id", "")])
               fresh_world).1 = Ok r
            /\ headers_get "X-Request-ID" (resp_headers r) = Some "1a2b3c4d").
  { eexists. split; vm_compute; reflexivity. }
  destruct Hrun as (r & Hr & Hid).
  specialize (H r Hr). rewrite Hid in H. clear Hr Hid.
  injection H as H. discriminate H.
Qed.

(* ===================================================================== *)
(** * Further properties of the code *)
(* ===================================================================== *)

(* ===================================================================== *)
(** ** Splitting on whitespace and the [Authorization] header *)
(* ===================================================================== *)

Lemma string_forall_app (P : ascii -> bool) (s1 s2 : string) :
  string_forall P (s1 +:+ s2) = string_forall P s1 && string_forall P s2.
Proof.
  induction s1 as [|c s1 IH]; simpl; [reflexivity|].
  rewrite IH. apply andb_assoc.
Qed.

Lemma split_blank (b : string) : is_blank b = true -> Py.split b = [].
Proof.
  induction b as [|c b IH]; simpl; [reflexivity|].
  intros H. apply andb_true_iff in H as [Hc Hb]. rewrite Hc. now apply IH.
Qed.

Lemma split_blank_app (b s : string) :
  is_blank b = true -> Py.split (b +:+ s) = Py.split s.
Proof.
  induction b as [|c b IH]; simpl; [reflexivity|].
  intros H. apply andb_true_iff in H as [Hc Hb]. rewrite Hc. now apply IH.
Qed.

(** One step of [split] inside a word. *)
Lemma split_inside_word (a a' : ascii) (s : string) :
  Py.isspace a = false -> Py.isspace a' = false ->
  Py.split (String a (String a' s))
  = match Py.split (String a' s) with
    | w :: ws => String a w :: ws
    | [] => [String a EmptyString]
    end.
Proof.
  intros Ha Ha'.
  change (Py.split (String a (String a' s)))
    with (if Py.isspace a then Py.split (String a' s)
          else if Py.isspace a'
               then String a EmptyString :: Py.split (String a' s)
               else match Py.split (String a' s) with
                    | w :: ws => String a w :: ws
                    | [] => [String a EmptyString]
                    end).
  now rewrite Ha, Ha'.
Qed.

(** A word followed by a whitespace character is the first part. *)
Lemma split_word_sep (w : string) (c : ascii) (s : string) :
  is_word w = true -> Py.isspace c = true ->
  Py.split (w +:+ String c s) = w :: Py.split s.
Proof.
  intros Hw Hc. destruct w as [|a w]; [discriminate|].
  unfold is_word in Hw. simpl in Hw.
  revert a Hw. induction w as [|a' w IH]; intros a Hw.
  - apply andb_true_iff in Hw as [Ha _]. apply negb_true_iff in Ha.
    simpl. now rewrite Ha, Hc.
  - apply andb_true_iff in Hw as [Ha Hw]. apply negb_true_iff in Ha.
    specialize (IH a' Hw).
    apply andb_true_iff in Hw as [Ha' _]. apply negb_true_iff in Ha'.
    change (String a (String a' w) +:+ String c s)
      with (String a (String a' (w +:+ String c s))).
    rewrite split_inside_word by assumption.
    change (String a' (w +:+ String c s)) with (String a' w +:+ String c s).
    now rewrite IH.
Qed.

(** A word at the end, with nothing or only whitespace after it. *)
Lemma split_word_end (w b : string) :
  is_word w = true -> is_blank b = true -> Py.split (w +:+ b) = [w].
Proof.
  intros Hw Hb. destruct b as [|c b].
  - destruct w as [|a w]; [discriminate|].
    unfold is_word in Hw. simpl in Hw.
    assert (Happ : forall s : string, s +:+ EmptyString = s).
    { induction s as [|x s IHs]; [reflexivity|].
      change (String x (s +:+ EmptyString) = String x s). now rewrite IHs. }
    rewrite Happ.
    revert a Hw. induction w as [|a' w IH]; intros a Hw.
    + apply andb_true_iff in Hw as [Ha _]. apply negb_true_iff in Ha.
      simpl. now rewrite Ha.
    + apply andb_true_iff in Hw as [Ha Hw]. apply negb_true_iff in Ha.
      specialize (IH a' Hw).
      apply andb_true_iff in Hw as [Ha' _]. apply negb_true_iff in Ha'.
      rewrite split_inside_word by assumption. now rewrite IH.
  - simpl in Hb. apply andb_true_iff in Hb as [Hc Hb].
    rewrite split_word_sep by assumption. now rewrite split_blank.
Qed.

Lemma isspace_lower_char (c : ascii) :
  Py.isspace (Py.lower_char c) = Py.isspace c.
Proof. destruct c as [[] [] [] [] [] [] [] []]; reflexivity. Qed.

Lemma no_space_lower (s : string) : no_space (Py.lower s) = no_space s.
Proof.
  induction s as [|c s IH]; [reflexivity|].
  unfold no_space in *. simpl. now rewrite isspace_lower_char, IH.
Qed.

Lemma is_word_lower (s : string) : is_word (Py.lower s) = is_word s.
Proof.
  unfold is_word. rewrite no_space_lower. now destruct s.
Qed.

(** What [str.split()] makes of a header of the form
    [blank scheme blank+ token blank]. *)
Lemma split_two_words (lead w1 sep w2 trail : string) :
  is_blank lead = true -> is_word w1 = true ->
  is_blank sep = true -> sep <> EmptyString ->
  is_word w2 = true -> is_blank trail = true ->
  Py.split (lead +:+ w1 +:+ sep +:+ w2 +:+ trail) = [w1; w2].
Proof.
  intros Hlead Hw1 Hsep Hne Hw2 Htrail.
  rewrite split_blank_app by exact Hlead.
  destruct sep as [|c sep]; [congruence|].
  simpl in Hsep. apply andb_true_iff in Hsep as [Hc Hsep].
  change (String c sep +:+ w2 +:+ trail) with (String c (sep +:+ w2 +:+ trail)).
  rewrite split_word_sep by assumption.
  rewrite split_blank_app by exact Hsep.
  now rewrite split_word_end.
Qed.

(** X1. The authenticator takes the token from any [Authorization] value
    made of the scheme in any letter case, whitespace of any kind and
    length, and one word without whitespace, with or without whitespace
    around them: such a value passes the format test, and it is that word
    which is handed to [jwt.decode]. *)
Theorem bearer_header_grammar (E : Env)
    (lead scheme sep token trail : string) (now : Z) :
  is_blank lead = true ->
  Py.lower scheme = "bearer" ->
  is_blank sep = true -> sep <> EmptyString ->
  is_word token = true ->
  is_blank trail = true ->
  let h := lead +:+ scheme +:+ sep +:+ token +:+ trail in
  Py.split h = [scheme; token]
  /\ bearer_form h = true
  /\ authenticate E (Some h) now
     = sort_decoded (jwt_decode E token (SECRET_KEY E) [ALGORITHM] now).
Proof.
  intros Hlead Hscheme Hsep Hne Htoken Htrail h.
  assert (Hw : is_word scheme = true).
  { rewrite <- is_word_lower, Hscheme. reflexivity. }
  assert (Hsplit : Py.split h = [scheme; token])
    by now apply split_two_words.
  assert (Hform : bearer_form h = true).
  { unfold bearer_form. rewrite Hsplit. cbn [length nth Nat.eqb andb].
    rewrite Hscheme. reflexivity. }
  split; [exact Hsplit | split; [exact Hform|]].
  unfold authenticate, Py.nonempty.
  rewrite (bearer_form_nonempty h Hform), Hform, Hsplit. reflexivity.
Qed.

(** X1, the theorem at work: [bEaReR], two spaces, the token, one more
    space. *)
Lemma bearer_header_grammar_witness :
  Py.split ("bEaReR  tok ") = ["bEaReR"; "tok"]
  /\ authenticate demo_env (Some "bEaReR  tok ") 50 = Authenticated demo_claims.
Proof.
  destruct (bearer_header_grammar demo_env EmptyString "bEaReR" "  " "tok" " "
              50 eq_refl eq_refl eq_refl) as (Hsplit & _ & Hauth).
  - discriminate.
  - reflexivity.
  - reflexivity.
  - split; [exact Hsplit|]. etransitivity; [exact Hauth | reflexivity].
Defined.

(* ===================================================================== *)
(** ** Rejections of the authenticator *)
(* ===================================================================== *)



(** X3. In the stack of [main.py] a request the authenticator rejects is
    answered before the rate limiter sees it: the store of the limiter is
    as it was, so rejected requests are never counted against the caller,
    and the answer carries no [X-Request-ID]. *)
Theorem rejected_requests_are_not_counted (E : Env) (request : Request)
    (w : World) :
  is_internal request = false ->
  (forall payload,
     auth_outcome E request (at_authenticator w) <> Authenticated payload) ->
  exists (response : Response) (w' : World),
    serve E request w = (Ok response, w')
    /\ rejection (auth_outcome E request (at_authenticator w)) = Some response
    /\ requests_store w' = requests_store w
    /\ headers_get "X-Request-ID" (resp_headers response) = None.
Proof.
  intros Hint Hrej. rewrite serve_unfold.
  unfold ServerErrorMiddleware, metrics_middleware. run.
  unfold time_time at 1. cbv beta iota.
  change (mkWorld (requests_store (enter w)) (log (enter w))
            (req_state (enter w)) (S (clock_reads (enter w)))
            (uuid_draws (enter w)))
    with (at_authenticator w).
  rewrite auth_dispatch_run by exact Hint.
  destruct (auth_outcome E request (at_authenticator w))
    as [| | | m | m | payload] eqn:Hout.
  6: { exfalso. now apply (Hrej payload). }
  all: eexists; eexists; repeat split.
Qed.

(** X3, the theorem at work: a request with a forged token leaves the
    store empty. *)
Lemma rejected_requests_are_not_counted_witness :
  exists (response : Response) (w' : World),
    serve demo_env
      (demo_request "GET" "/api/items" [("authorization", "Bearer forged")])
      fresh_world = (Ok response, w')
    /\ status_code response = 401
    /\ requests_store w' = ∅.
Proof.
  destruct (rejected_requests_are_not_counted demo_env
              (demo_request "GET" "/api/items"
                 [("authorization", "Bearer forged")])
              fresh_world eq_refl)
    as (response & w' & Hrun & Hrej & Hstore & _).
  - intros payload H. discriminate H.
  - exists response, w'. split; [exact Hrun|]. split; [|exact Hstore].
    injection Hrej as <-. reflexivity.
Defined.



(* ===================================================================== *)
(** ** Who the caller is *)
(* ===================================================================== *)

(** The dictionary the logger builds keeps, for each name, the value of
    the last header of that name. *)
Lemma lowered_headers_last (hs : list (string * string)) (name : string) :
  lower_case_names hs ->
  lowered_headers hs !! Py.lower name = headers_get name (reverse hs).
Proof.
  unfold lower_case_names, lowered_headers.
  induction hs as [|[k v] hs IH] using rev_ind; intros Hlow.
  - reflexivity.
  - apply Forall_app in Hlow as [Hlow Hk].
    apply Forall_inv in Hk. simpl in Hk.
    rewrite foldl_app, reverse_snoc. cbn [foldl headers_get fst snd].
    rewrite Hk. destruct (String.eqb_spec k (Py.lower name)) as [->|Hne].
    + apply lookup_insert_eq.
    + rewrite lookup_insert_ne by exact Hne. now apply IH.
Qed.

(** With no name repeated, a header is found exactly when it is there. *)
Lemma headers_get_elem_of (hs : list (string * string)) (name v : string) :
  NoDup (hs.*1) ->
  headers_get name hs = Some v <-> (Py.lower name, v) ∈ hs.
Proof.
  induction hs as [|[k v'] hs IH]; intros Hnd.
  - split; [discriminate | intros H; inversion H].
  - apply NoDup_cons in Hnd as [Hk Hnd]. simpl.
    destruct (String.eqb_spec k (Py.lower name)) as [->|Hne].
    + split.
      * intros [= ->]. left.
      * intros H. apply elem_of_cons in H as [[= ->]|H]; [reflexivity|].
        exfalso. apply Hk. apply list_elem_of_fmap. now exists (Py.lower name, v).
    + rewrite IH by exact Hnd. split.
      * intros H. now right.
      * intros H. apply elem_of_cons in H as [[= Hk' Hv]|H]; [|exact H].
        exfalso. apply Hne. now symmetry.
Qed.

Lemma headers_get_reverse (hs : list (string * string)) (name : string) :
  NoDup (hs.*1) -> headers_get name (reverse hs) = headers_get name hs.
Proof.
  intros Hnd.
  assert (Hnd' : NoDup ((reverse hs).*1)).
  { rewrite fmap_reverse. now rewrite reverse_Permutation. }
  destruct (headers_get name hs) as [v|] eqn:Hget.
  - apply headers_get_elem_of; [exact Hnd'|].
    apply elem_of_reverse. now apply headers_get_elem_of.
  - destruct (headers_get name (reverse hs)) as [v|] eqn:Hrev; [|reflexivity].
    apply (proj1 (headers_get_elem_of _ _ _ Hnd')) in Hrev.
    rewrite elem_of_reverse in Hrev.
    apply (proj2 (headers_get_elem_of _ _ _ Hnd)) in Hrev. congruence.
Qed.

(** X5. The request logger and the rate limiter do not resolve the caller
    from the same header when a name is repeated: the logger reads the
    last [X-Forwarded-For] and [X-Real-IP] header, the limiter the first.
    The logger's answer is the limiter's answer on the headers in
    reverse order. *)
Theorem logger_resolves_from_last_header (request : Request) :
  lower_case_names (headers request) ->
  logging_get_client_ip request
  = get_client_ip (with_headers request (reverse (headers request))).
Proof.
  intros Hlow. unfold logging_get_client_ip, get_client_ip.
  change "x-forwarded-for" with (Py.lower "X-Forwarded-For").
  change "x-real-ip" with (Py.lower "X-Real-IP").
  rewrite !lowered_headers_last by exact Hlow. reflexivity.
Qed.

(** X5, the theorem at work: two [X-Forwarded-For] headers. *)
Lemma logger_resolves_from_last_header_witness :
  logging_get_client_ip
    (demo_request "GET" "/api/items"
       [("x-forwarded-for", "1.1.1.1"); ("x-forwarded-for", "2.2.2.2")])
  = "2.2.2.2"
  /\ get_client_ip
       (demo_request "GET" "/api/items"
          [("x-forwarded-for", "1.1.1.1"); ("x-forwarded-for", "2.2.2.2")])
     = "1.1.1.1".
Proof.
  split; [|reflexivity].
  rewrite (logger_resolves_from_last_header
             (demo_request "GET" "/api/items"
                [("x-forwarded-for", "1.1.1.1"); ("x-forwarded-for", "2.2.2.2")])).
  - reflexivity.
  - repeat constructor.
Defined.

(** X6. When no header name is repeated, the logger and the limiter name
    the same caller. *)
Theorem resolvers_agree_without_repeats (request : Request) :
  lower_case_names (headers request) ->
  NoDup ((headers request).*1) ->
  logging_get_client_ip request = get_client_ip request.
Proof.
  intros Hlow Hnd. unfold logging_get_client_ip, get_client_ip.
  change "x-forwarded-for" with (Py.lower "X-Forwarded-For").
  change "x-real-ip" with (Py.lower "X-Real-IP").
  rewrite !lowered_headers_last by exact Hlow.
  now rewrite !headers_get_reverse by exact Hnd.
Qed.

(** X6, the theorem at work. *)
Lemma resolvers_agree_without_repeats_witness :
  logging_get_client_ip
    (demo_request "GET" "/api/items"
       [("x-real-ip", "3.3.3.3"); ("x-forwarded-for", " 1.1.1.1 , 9.9.9.9")])
  = "1.1.1.1".
Proof.
  rewrite (resolvers_agree_without_repeats
             (demo_request "GET" "/api/items"
                [("x-real-ip", "3.3.3.3");
                 ("x-forwarded-for", " 1.1.1.1 , 9.9.9.9")])).
  - reflexivity.
  - repeat constructor.
  - apply (bool_decide_unpack _). vm_compute. reflexivity.
Defined.

(* ===================================================================== *)
(** ** The store of the rate limiter *)
(* ===================================================================== *)

Section Store.

Variable E : Env.

Lemma check_store (c : string) (t : Q) (store : gmap string RLRecord) :
  (check E c t store).2 = <[c := next_record E t (store !! c)]> store.
Proof. reflexivity. Qed.

(** X7. The limiter never forgets a caller: after any run the store holds
    a record for every caller it held before and for every caller of the
    run, and for no one else. *)
Theorem store_only_grows (trace : list (string * Q))
    (store : gmap string RLRecord) :
  dom (run_checks E trace store).2 = dom store ∪ callers trace.
Proof.
  revert store. induction trace as [|[c t] trace IH]; intros store.
  - unfold callers. cbn [run_checks snd fmap list_fmap].
    now rewrite list_to_set_nil, (right_id_L ∅ (∪)).
  - rewrite run_checks_cons. cbn [snd]. rewrite IH, check_store, dom_insert_L.
    unfold callers. rewrite fmap_cons, list_to_set_cons. cbn [fst].
    rewrite (comm_L (∪) {[c]} (dom store)). now rewrite (assoc_L (∪)).
Qed.



(** The decision for a caller and the record it leaves depend on the
    caller's own record only. *)
Lemma check_depends_on_own_record (c : string) (t : Q)
    (s1 s2 : gmap string RLRecord) :
  s1 !! c = s2 !! c ->
  (check E c t s1).1 = (check E c t s2).1
  /\ (check E c t s1).2 !! c = (check E c t s2).2 !! c.
Proof.
  intros H. split.
  - unfold check. cbn [fst]. now rewrite H.
  - now rewrite !check_same, H.
Qed.

Lemma decisions_independent (c : string) :
  forall (trace : list (string * Q)) (s1 s2 : gmap string RLRecord),
    s1 !! c = s2 !! c ->
    decisions_for c trace (run_checks E trace s1).1
    = (run_checks E (requests_for c trace) s2).1.
Proof.
  induction trace as [|[c' t] trace IH]; intros s1 s2 Hs.
  - reflexivity.
  - rewrite run_checks_cons. cbn [fst].
    unfold decisions_for, requests_for in *. cbn [zip zip_with].
    destruct (decide (c' = c)) as [->|Hne].
    + rewrite !filter_cons_True by reflexivity.
      rewrite run_checks_cons. cbn [fst]. rewrite fmap_cons. cbn [snd].
      destruct (check_depends_on_own_record c t s1 s2 Hs) as [Hd Hr].
      rewrite Hd. f_equal. now apply IH.
    + rewrite !filter_cons_False by (cbn; congruence).
      apply IH. now rewrite check_other.
Qed.

(** X9. Callers do not interfere: in any run, the decisions made for one
    caller are the decisions the limiter would have made had the other
    callers sent nothing. *)
Theorem callers_are_independent (c : string) (trace : list (string * Q))
    (store : gmap string RLRecord) :
  decisions_for c trace (run_checks E trace store).1
  = (run_checks E (requests_for c trace) store).1.
Proof. now apply decisions_independent. Qed.

End Store.


(* ===================================================================== *)
(** ** The caller named by [X-Forwarded-For] *)
(* ===================================================================== *)

Lemma string_forall_rev_app (P : ascii -> bool) (s1 s2 : string) :
  string_forall P (String.rev_app s1 s2)
  = string_forall P s1 && string_forall P s2.
Proof.
  revert s2. induction s1 as [|c s1 IH]; intros s2; [reflexivity|].
  cbn [String.rev_app string_forall]. rewrite IH. cbn [string_forall].
  destruct (P c), (string_forall P s1), (string_forall P s2); reflexivity.
Qed.

Lemma string_forall_lstrip (P : ascii -> bool) (s : string) :
  string_forall P s = true -> string_forall P (Py.lstrip s) = true.
Proof.
  induction s as [|c s IH]; [reflexivity|].
  intros H. cbn [Py.lstrip]. destruct (Py.isspace c); [|exact H].
  apply IH. cbn [string_forall] in H. now apply andb_true_iff in H as [_ H].
Qed.

Lemma string_forall_strip (P : ascii -> bool) (s : string) :
  string_forall P s = true -> string_forall P (Py.strip s) = true.
Proof.
  intros H. unfold Py.strip, String.rev.
  rewrite string_forall_rev_app, andb_true_r.
  apply string_forall_lstrip.
  rewrite string_forall_rev_app, andb_true_r.
  now apply string_forall_lstrip.
Qed.

Lemma no_comma_before_comma (s : string) : no_comma (Py.before_comma s) = true.
Proof.
  unfold no_comma. induction s as [|c s IH]; [reflexivity|].
  cbn [Py.before_comma]. destruct (Ascii.eqb c ","%char) eqn:Hc; [reflexivity|].
  cbn [string_forall]. now rewrite Hc, IH.
Qed.

Section Forwarded.

Variable E : Env.

(** X10. A non-empty [X-Forwarded-For] header alone names the caller: the
    text before its first comma, stripped, which holds no comma; the
    peer address has no part in it.  So a request whose header names an
    address the store has no record of passes the limiter whenever the
    limit is at least 1, however many requests its peer has made, and
    leaves the records of all other addresses as they were. *)
Theorem forwarded_for_names_the_caller (call_next : Handler)
    (request : Request) (w : World) (forwarded_for : string) :
  Py.nonempty (headers_get "X-Forwarded-For" (headers request))
    = Some forwarded_for ->
  let claimed := Py.strip (Py.before_comma forwarded_for) in
  requests_store w !! claimed = None ->
  1 <= RATE_LIMIT E ->
  (forall host, get_client_ip (with_client_host request host) = claimed)
  /\ no_comma claimed = true
  /\ RateLimitMiddleware_dispatch E call_next request w
     = call_next request (limited E request w)
  /\ (forall c, c <> claimed ->
        requests_store (limited E request w) !! c = requests_store w !! c).
Proof.
  intros Hxff claimed Hnew Hlim.
  assert (Hip : get_client_ip request = claimed).
  { unfold get_client_ip. now rewrite Hxff. }
  split; [|split; [|split]].
  - intros host. unfold get_client_ip. cbn [headers with_client_host].
    now rewrite Hxff.
  - apply string_forall_strip, no_comma_before_comma.
  - rewrite rate_limit_dispatch_run, Hip. unfold check. cbn [fst].
    rewrite next_record_opens by (unfold window_opens; now rewrite Hnew).
    cbn [count]. destruct (1 >? RATE_LIMIT E) eqn:Hc; [lia | reflexivity].
  - intros c Hne. unfold limited. cbn [requests_store]. rewrite Hip.
    now apply check_other.
Qed.

(** X11. The health and metrics paths pass the authenticator but not the
    limiter: in the stack of [main.py] a request to such a path is
    counted against its caller like any other, and when the limiter
    denies it the gateway answers 429, without an [X-Request-ID]. *)
Theorem internal_paths_are_rate_limited (request : Request) (w : World)
    (retry_after : Z) :
  is_internal request = true ->
  (check E (get_client_ip request) (clock E (S (clock_reads w)))
         (requests_store w)).1 = Deny retry_after ->
  exists w' : World,
    serve E request w = (Ok (too_many_requests retry_after), w')
    /\ requests_store w'
       = (check E (get_client_ip request) (clock E (S (clock_reads w)))
                (requests_store w)).2
    /\ headers_get "X-Request-ID"
         (resp_headers (too_many_requests retry_after)) = None.
Proof.
  intros Hint Hdeny. rewrite serve_unfold.
  unfold ServerErrorMiddleware, metrics_middleware. run.
  unfold time_time at 1. cbv beta iota.
  change (mkWorld (requests_store (enter w)) (log (enter w))
            (req_state (enter w)) (S (clock_reads (enter w)))
            (uuid_draws (enter w)))
    with (at_authenticator w).
  rewrite auth_dispatch_skip by exact Hint.
  rewrite rate_limit_dispatch_run.
  change (clock_reads (after_skip request (at_authenticator w)))
    with (S (clock_reads w)).
  change (requests_store (after_skip request (at_authenticator w)))
    with (requests_store w).
  rewrite Hdeny. eexists. split; [reflexivity|]. split; reflexivity.
Qed.

End Forwarded.

(** X10, the theorem at work: the peer 10.0.0.1 has used up its window,
    and passes by naming 7.7.7.7. *)
Lemma forwarded_for_names_the_caller_witness :
  RateLimitMiddleware_dispatch demo_env next_ok
    (demo_request "GET" "/api/items" [("x-forwarded-for", "7.7.7.7, 10.0.0.1")])
    busy_world
  = next_ok
      (demo_request "GET" "/api/items"
         [("x-forwarded-for", "7.7.7.7, 10.0.0.1")])
      (limited demo_env
         (demo_request "GET" "/api/items"
            [("x-forwarded-for", "7.7.7.7, 10.0.0.1")]) busy_world).
Proof.
  destruct (forwarded_for_names_the_caller demo_env next_ok
              (demo_request "GET" "/api/items"
                 [("x-forwarded-for", "7.7.7.7, 10.0.0.1")])
              busy_world "7.7.7.7, 10.0.0.1" eq_refl)
    as (_ & _ & Hpass & _).
  - reflexivity.
  - vm_compute. discriminate.
  - exact Hpass.
Defined.

(** X11, the theorem at work: the sixth probe of [/health/live] within a
    window is answered 429. *)
Lemma internal_paths_are_rate_limited_witness :
  exists w' : World,
    serve demo_env (demo_request "GET" "/health/live" []) busy_world
    = (Ok (too_many_requests 59), w').
Proof.
  destruct (internal_paths_are_rate_limited demo_env
              (demo_request "GET" "/health/live" []) busy_world 59 eq_refl)
    as (w' & Hrun & _).
  - reflexivity.
  - exists w'. exact Hrun.
Defined.

(* ===================================================================== *)
(** ** What the proxy forwards *)
(* ===================================================================== *)

Lemma headers_get_filter_ne (name k : string) (hs : list (string * string)) :
  headers_get name (filter (fun kv => kv.1 <> k) hs)
  = if decide (Py.lower name = k) then None else headers_get name hs.
Proof.
  induction hs as [|[k' v] hs IH].
  - now destruct (decide _).
  - destruct (decide (k' = k)) as [->|Hne].
    + rewrite filter_cons_False by (cbn; tauto).
      rewrite IH. destruct (decide (Py.lower name = k)) as [Heq|Hneq];
        [reflexivity|].
      cbn [headers_get]. destruct (String.eqb_spec k (Py.lower name));
        [congruence | reflexivity].
    + rewrite filter_cons_True by exact Hne. cbn [headers_get]. rewrite IH.
      destruct (String.eqb_spec k' (Py.lower name)) as [->|Hk];
        [|reflexivity].
      destruct (decide (Py.lower name = k)); [congruence | reflexivity].
Qed.

Lemma NoDup_fst_filter (P : string * string -> Prop)
    `{forall x, base.Decision (P x)} (hs : list (string * string)) :
  NoDup (hs.*1) -> NoDup ((filter P hs).*1).
Proof.
  induction hs as [|[k v] hs IH]; intros Hnd; [constructor|].
  apply NoDup_cons in Hnd as [Hk Hnd].
  destruct (decide (P (k, v))).
  - rewrite filter_cons_True by assumption. rewrite fmap_cons.
    apply NoDup_cons. split; [|now apply IH].
    intros Hin. apply Hk. apply list_elem_of_fmap in Hin as (x & Hx & Hin).
    apply list_elem_of_filter in Hin as [_ Hin].
    apply list_elem_of_fmap. now exists x.
  - rewrite filter_cons_False by assumption. now apply IH.
Qed.

Lemma filter_all (P : string * string -> Prop) `{forall x, base.Decision (P x)}
    (hs : list (string * string)) :
  (forall x, x ∈ hs -> P x) -> filter P hs = hs.
Proof.
  induction hs as [|x hs IH]; intros Hall; [reflexivity|].
  rewrite filter_cons_True by (apply Hall; left).
  f_equal. apply IH. intros y Hy. apply Hall. now right.
Qed.

(** X12. [dict(request.headers)] keeps one header per name, the first of
    that name: what the backend receives has no repeated name, and
    looking a name up in it gives what the gateway itself reads from the
    request. *)
Theorem forwarded_headers_keep_first (hs : list (string * string)) :
  NoDup ((dict_of_headers hs).*1)
  /\ forall name, headers_get name (dict_of_headers hs) = headers_get name hs.
Proof.
  split.
  - induction hs as [|[k v] hs IH]; [constructor|].
    cbn [dict_of_headers]. rewrite fmap_cons. apply NoDup_cons. split.
    + intros Hin. apply list_elem_of_fmap in Hin as (x & Hx & Hin).
      apply list_elem_of_filter in Hin as [Hne _]. cbn in Hx. congruence.
    + now apply NoDup_fst_filter.
  - intros name. induction hs as [|[k v] hs IH]; [reflexivity|].
    cbn [dict_of_headers headers_get].
    destruct (String.eqb_spec k (Py.lower name)) as [->|Hk]; [reflexivity|].
    rewrite headers_get_filter_ne.
    destruct (decide (Py.lower name = k)); [congruence | exact IH].
Qed.

(** X13. The headers reach the backend unchanged, in number and in order,
    exactly when the request repeats no header name. *)
Theorem forwarded_headers_unchanged_without_repeats
    (hs : list (string * string)) :
  NoDup (hs.*1) -> dict_of_headers hs = hs.
Proof.
  induction hs as [|[k v] hs IH]; intros Hnd; [reflexivity|].
  apply NoDup_cons in Hnd as [Hk Hnd].
  cbn [dict_of_headers]. rewrite IH by exact Hnd. f_equal.
  apply filter_all. intros [k' v'] Hin Heq. cbn in Heq. subst k'.
  apply Hk. apply list_elem_of_fmap. now exists (k, v').
Qed.

(** X13, the theorem at work, and a request that repeats a name: the
    second [cookie] header does not reach the backend. *)
Lemma forwarded_headers_unchanged_without_repeats_witness :
  dict_of_headers [("host", "gw"); ("cookie", "a=1")]
    = [("host", "gw"); ("cookie", "a=1")]
  /\ dict_of_headers [("cookie", "a=1"); ("host", "gw"); ("cookie", "b=2")]
     = [("cookie", "a=1"); ("host", "gw")].
Proof.
  split; [|reflexivity].
  apply forwarded_headers_unchanged_without_repeats.
  apply (bool_decide_unpack _). vm_compute. reflexivity.
Defined.

Lemma substring_all (s : string) : String.substring 0 (String.length s) s = s.
Proof. induction s as [|c s IH]; [reflexivity|]. simpl. now rewrite IH. Qed.

(** X14. A path under [/api/] is forwarded without that prefix: the
    request goes to the backend base followed by a slash and the rest of
    the path, which may be empty. *)
Theorem api_prefix_is_stripped (request : Request) (rest : string) :
  url_path request = "/api/" +:+ rest ->
  Py.startswith (url_path request) "/api/" = true
  /\ path_param request = rest
  /\ u_url (upstream_request request (path_param request))
     = "http://localhost:9000/" +:+ rest.
Proof.
  intros Hpath.
  assert (Hparam : path_param request = rest).
  { unfold path_param. rewrite Hpath.
    change (String.length ("/api/" +:+ rest) - 5)%nat
      with (String.length rest - 0)%nat.
    rewrite Nat.sub_0_r.
    change (String.substring 5 (String.length rest) ("/api/" +:+ rest))
      with (String.substring 0 (String.length rest) rest).
    apply substring_all. }
  split; [|split].
  - unfold Py.startswith. rewrite Hpath. now destruct rest.
  - exact Hparam.
  - rewrite Hparam. reflexivity.
Qed.

(** X14, the theorem at work: [/api/] alone goes to the root of the
    backend. *)
Lemma api_prefix_is_stripped_witness :
  u_url (upstream_request (demo_request "GET" "/api/" [])
           (path_param (demo_request "GET" "/api/" [])))
  = "http://localhost:9000/".
Proof.
  destruct (api_prefix_is_stripped (demo_request "GET" "/api/" [])
              EmptyString eq_refl) as (_ & _ & Hurl).
  exact Hurl.
Defined.

Section BadJson.

Variable E : Env.

(** X15. When the backend declares JSON and its body does not decode,
    [proxy] raises an exception that is no [HTTPException]: the route has
    no answer, the request logger writes a "Request failed" entry and
    raises the exception again, and the outermost layer answers a plain
    500; the status the backend sent plays no part. *)
Theorem undecodable_json_is_a_failure (request : Request) (w : World)
    (response : UpstreamResponse) :
  proxied request = true ->
  send E (upstream_request request (path_param request)) = inr response ->
  declares_json response = true ->
  json_loads E (up_text response) = None ->
  let e := PyException "JSONDecodeError" in
  let w1 := started E request w in
  logged_route E request w
    = (Raise e,
       finished w1 (failed_entry request (chosen_id E request w) e
                      (elapsed E w w1)))
  /\ (ServerErrorMiddleware (logged_route E) request w).1
     = Ok (mkResponse 500 [("content-type", "text/plain; charset=utf-8")]
             (RawBody "Internal Server Error")).
Proof.
  intros Hp Hsend Hjson Hload e w1.
  assert (Hrun : logged_route E request w
                 = (Raise e,
                    finished w1 (failed_entry request (chosen_id E request w) e
                                   (elapsed E w w1)))).
  { unfold logged_route. rewrite logging_dispatch_run. fold w1.
    rewrite route_run by exact Hp.
    rewrite proxy_run, Hsend, Hjson, Hload. reflexivity. }
  split; [exact Hrun|].
  unfold ServerErrorMiddleware. run. now rewrite Hrun.
Qed.

End BadJson.

(** X15, the theorem at work: the backend sends HTML under a JSON content
    type. *)
Lemma undecodable_json_is_a_failure_witness :
  (ServerErrorMiddleware (logged_route (demo_env_with 5 backend_bad_json))
     (demo_request "GET" "/api/items" []) fresh_world).1
  = Ok (mkResponse 500 [("content-type", "text/plain; charset=utf-8")]
          (RawBody "Internal Server Error")).
Proof.
  destruct (undecodable_json_is_a_failure (demo_env_with 5 backend_bad_json)
              (demo_request "GET" "/api/items" []) fresh_world
              (mkUpstream 200 [("Content-Type", "application/json")] "<html>")
              eq_refl eq_refl eq_refl eq_refl) as (_ & H500).
  exact H500.
Defined.

(* ===================================================================== *)
(** ** The generated id and the header that carries it *)
(* ===================================================================== *)

Lemma hex_digit_is_hex (d : N) :
  (d < 16)%N -> is_hex_char (UUID.hex_digit d) = true.
Proof.
  intros H. destruct d as [|p]; [reflexivity|].
  do 4 (destruct p as [p|p|]; try reflexivity); lia.
Qed.

Lemma hex_is_hex (n : nat) (v : N) :
  string_forall is_hex_char (UUID.hex n v) = true.
Proof.
  revert v. induction n as [|n IH]; intros v; [reflexivity|].
  cbn [UUID.hex]. rewrite string_forall_app, IH. cbn [string_forall].
  rewrite hex_digit_is_hex; [reflexivity|].
  apply N.mod_lt. discriminate.
Qed.

Lemma string_forall_substring (P : ascii -> bool) (i n : nat) (s : string) :
  string_forall P s = true -> string_forall P (String.substring i n s) = true.
Proof.
  revert i n. induction s as [|c s IH]; intros i n H.
  - destruct i, n; reflexivity.
  - cbn [string_forall] in H. apply andb_true_iff in H as [Hc Hs].
    destruct i as [|i].
    + destruct n as [|n]; [reflexivity|].
      cbn [String.substring string_forall]. now rewrite Hc, IH.
    + cbn [String.substring]. now apply IH.
Qed.

(** X16. Whatever the random bits, the id [generate_request_id] returns
    is made of exactly eight lower-case hexadecimal digits, so it holds
    no whitespace and can be sent as a header value as it is. *)
Theorem request_id_is_eight_hex_digits (E : Env) (w : World) :
  exists rid : string,
    (generate_request_id E w).1 = Ok rid
    /\ rid = generated_id E w
    /\ String.length rid = 8%nat
    /\ string_forall is_hex_char rid = true.
Proof.
  exists (generated_id E w). split; [reflexivity|]. split; [reflexivity|].
  split; [apply take8_uuid_str_length|].
  unfold generated_id. rewrite take8_uuid_str.
  apply string_forall_substring, hex_is_hex.
Qed.

Lemma count_header_filter_ne (key : string) (hs : list (string * string)) :
  count_header key (filter (fun kv => kv.1 <> key) hs) = 0%nat.
Proof.
  unfold count_header. induction hs as [|[k v] hs IH]; [reflexivity|].
  destruct (decide (k = key)) as [->|Hne].
  - rewrite filter_cons_False by (cbn; tauto). exact IH.
  - rewrite filter_cons_True by exact Hne.
    rewrite filter_cons_False by exact Hne. exact IH.
Qed.

Lemma count_header_set (key value : string) (hs : list (string * string)) :
  count_header key (set_header_key key value hs) = 1%nat.
Proof.
  induction hs as [|[k v] hs IH]; [unfold count_header; cbn [set_header_key];
    now rewrite filter_cons_True|].
  cbn [set_header_key]. destruct (String.eqb_spec k key) as [->|Hne].
  - unfold count_header. rewrite filter_cons_True by reflexivity.
    cbn [length]. f_equal. apply count_header_filter_ne.
  - unfold count_header in *. now rewrite filter_cons_False.
Qed.

Lemma headers_get_set_other (name key value : string)
    (hs : list (string * string)) :
  Py.lower name <> key ->
  headers_get name (set_header_key key value hs) = headers_get name hs.
Proof.
  intros Hne. induction hs as [|[k v] hs IH].
  - cbn [set_header_key headers_get].
    destruct (String.eqb_spec key (Py.lower name)); [congruence | reflexivity].
  - cbn [set_header_key]. destruct (String.eqb_spec k key) as [->|Hk].
    + cbn [headers_get].
      destruct (String.eqb_spec key (Py.lower name)); [congruence|].
      rewrite headers_get_filter_ne.
      destruct (decide (Py.lower name = key)); [congruence | reflexivity].
    + cbn [headers_get]. now rewrite IH.
Qed.

(** X17. The request logger sets [X-Request-ID] on the response without
    disturbing it: afterwards the response has exactly one header of that
    name, holding the id (an id the wrapped stages or the backend had set
    is replaced, not doubled), every header of another name reads as
    before, and status and body are as they were. *)
Theorem request_id_header_is_set_once (rid : string) (response : Response) :
  count_header "x-request-id" (resp_headers (with_request_id rid response))
    = 1%nat
  /\ headers_get "X-Request-ID" (resp_headers (with_request_id rid response))
     = Some rid
  /\ (forall name, Py.lower name <> "x-request-id" ->
        headers_get name (resp_headers (with_request_id rid response))
        = headers_get name (resp_headers response))
  /\ status_code (with_request_id rid response) = status_code response
  /\ resp_body (with_request_id rid response) = resp_body response.
Proof.
  split; [|split; [|split; [|split; reflexivity]]].
  - apply count_header_set.
  - apply headers_get_set_header.
  - intros name Hne. now apply headers_get_set_other.
Qed.

(* ===================================================================== *)
(** ** A request that passes every stage *)
(* ===================================================================== *)

(** X18. How the stages of [main.py] compose for a request to a protected
    path that the authenticator accepts and the limiter allows: the route
    runs with the claims and the request id on [request.state], after the
    authenticator, the limiter and the logger have each left their mark;
    what the route answers comes back with the id in [X-Request-ID], and
    an exception of the route becomes a plain 500. *)
Theorem accepted_requests_reach_the_route (E : Env) (request : Request)
    (w : World) (payload : Claims) :
  is_internal request = false ->
  auth_outcome E request (at_authenticator w) = Authenticated payload ->
  let w2 := after_auth E request (at_authenticator w) in
  (check E (get_client_ip request) (clock E (clock_reads w2))
         (requests_store w2)).1 = Allow ->
  let w3 := started E request (limited E request w2) in
  let rid := chosen_id E request (limited E request w2) in
  req_state w3 = mkState (Some rid) (Some payload)
  /\ requests_store w3
     = (check E (get_client_ip request) (clock E (clock_reads w2))
              (requests_store w)).2
  /\ (serve E request w).1
     = match (ExceptionMiddleware (router E) request w3).1 with
       | Ok response => Ok (with_request_id rid response)
       | Raise _ =>
           Ok (mkResponse 500 [("content-type", "text/plain; charset=utf-8")]
                 (RawBody "Internal Server Error"))
       end.
Proof.
  intros Hint Hout w2 Hallow w3 rid.
  split; [|split].
  - unfold w3, started, limited, w2, after_auth, rid.
    cbn [req_state user]. now rewrite Hout.
  - reflexivity.
  - rewrite serve_unfold.
    unfold ServerErrorMiddleware, metrics_middleware. run.
    unfold time_time at 1. cbv beta iota.
    change (mkWorld (requests_store (enter w)) (log (enter w))
              (req_state (enter w)) (S (clock_reads (enter w)))
              (uuid_draws (enter w)))
      with (at_authenticator w).
    rewrite auth_dispatch_run by exact Hint.
    rewrite Hout. cbn [rejection]. fold w2.
    rewrite rate_limit_dispatch_run, Hallow.
    rewrite logging_dispatch_run. fold w3 rid.
    destruct (ExceptionMiddleware (router E) request w3) as [[response|e] w4];
      reflexivity.
Qed.

(** X18, the theorem at work: a valid token, the backend down; the 503 of
    the route comes back with the request id. *)
Lemma accepted_requests_reach_the_route_witness :
  (serve demo_env
     (demo_request "GET" "/api/items" [("authorization", "Bearer tok")])
     fresh_world).1
  = Ok (with_request_id "1a2b3c4d"
          (JSONResponse 503
             (detail "Backend service unavailable: All connection attempts failed"))).
Proof.
  destruct (accepted_requests_reach_the_route demo_env
              (demo_request "GET" "/api/items" [("authorization", "Bearer tok")])
              fresh_world demo_claims eq_refl eq_refl eq_refl)
    as (_ & _ & Hrun).
  etransitivity; [exact Hrun|]. vm_compute. reflexivity.
Defined.

(* ===================================================================== *)
(** ** The parts of a split *)
(* ===================================================================== *)

(** Every part [str.split()] returns is a word: not empty and free of
    whitespace. *)
Lemma split_parts_are_words (s : string) :
  Forall (fun part => is_word part = true) (Py.split s).
Proof.
  induction s as [|c s IH]; [constructor|].
  cbn [Py.split]. destruct (Py.isspace c) eqn:Hc; [exact IH|].
  assert (Hone : is_word (String c EmptyString) = true).
  { unfold is_word, no_space. cbn. now rewrite Hc. }
  destruct s as [|c' s']; [now repeat constructor|].
  destruct (Py.isspace c') eqn:Hc'; [now constructor|].
  destruct (Py.split (String c' s')) as [|part parts];
    [now repeat constructor|].
  apply Forall_cons in IH as [Hpart Hparts]. constructor; [|exact Hparts].
  unfold is_word, no_space in *. cbn [Py.truthy string_forall andb].
  rewrite Hc. cbn [negb andb].
  now apply andb_true_iff in Hpart as [_ Hpart].
Qed.

(** X19. Whatever [Authorization] value passes the format test of the
    authenticator, the token it hands to [jwt.decode] is never empty and
    holds no whitespace, and the scheme is [bearer] up to letter case. *)
Theorem decoded_token_is_one_word (auth_header : string) :
  bearer_form auth_header = true ->
  exists scheme token : string,
    Py.split auth_header = [scheme; token]
    /\ Py.lower scheme = "bearer"
    /\ nth 1 (Py.split auth_header) EmptyString = token
    /\ is_word token = true.
Proof.
  unfold bearer_form. intros H. apply andb_true_iff in H as [Hlen Hscheme].
  pose proof (split_parts_are_words auth_header) as Hwords.
  destruct (Py.split auth_header) as [|scheme [|token [|x xs]]];
    try discriminate.
  exists scheme, token. split; [reflexivity|].
  cbn [nth] in *. split; [now apply String.eqb_eq|].
  split; [reflexivity|].
  apply Forall_cons in Hwords as [_ Hwords].
  now apply Forall_cons in Hwords as [Htoken _].
Qed.

(** X19, the theorem at work. *)
Lemma decoded_token_is_one_word_witness :
  exists scheme token : string,
    Py.split "Bearer abc.def.ghi" = [scheme; token]
    /\ is_word token = true.
Proof.
  destruct (decoded_token_is_one_word "Bearer abc.def.ghi" eq_refl)
    as (scheme & token & Hsplit & _ & _ & Hword).
  exists scheme, token. split; [exact Hsplit | exact Hword].
Defined.
